(** * crypto-checkout: conversion page and recipient-details page

    A shallow embedding of the two page controllers of the checkout demo
    ([app/page.tsx], [app/recipient-details/page.tsx]), of the helpers in
    [app/lib/utils.ts], of the validators in [app/hooks/useFormValidation.ts]
    and of the tables in [app/constants/design-tokens.ts].

    - JavaScript numbers are IEEE 754 binary64 values: [spec_float] with
      precision 53 and maximal exponent 1024, multiplied and divided by the
      Standard Library's [SFmul] and [SFdiv].
    - Strings are sequences of code units; a [string] of the Standard Library
      holds the code units below 256.
    - [useState] cells are the fields of a record; an event handler or a timer
      callback is a function on that record (React applies the setters of one
      handler together and renders again before the next event, so a handler
      reads the state of the latest render).
    - [setTimeout] appends to a timer queue ordered by expiry; [Wait] lets time
      pass and runs the callbacks that have come due, oldest expiry first. *)

From Stdlib Require Import ZArith NArith List String Ascii DecimalString.
From Stdlib Require Import Bool Lia SpecFloat.
From stdpp Require Import gmap strings.

Open Scope string_scope.

(** ** JavaScript values *)

(** What a call either returns or throws. *)
Inductive completion (A : Type) : Type :=
| Return (a : A)
| Throw (error : string).
Arguments Return {A} a.
Arguments Throw {A} error.

Module JSString.

Definition chars (s : string) : list ascii := list_ascii_of_string s.

(** Truthiness of a string: only the empty string is falsy. *)
Definition truthy (s : string) : bool :=
  match s with
  | EmptyString => false
  | String _ _ => true
  end.

(** [a || b] on strings. *)
Definition or_else (a b : string) : string := if truthy a then a else b.

(** [\d] *)
Definition is_digit (c : ascii) : bool :=
  let n := N_of_ascii c in ((48 <=? n) && (n <=? 57))%N.

(** [\s], also the white space that [parseFloat] skips: TAB, LF, VT, FF, CR,
    SP and NBSP among the code units below 256. *)
Definition is_space (c : ascii) : bool :=
  let n := N_of_ascii c in
  (((9 <=? n) && (n <=? 13)) || (n =? 32) || (n =? 160))%N.

Definition digit_value (c : ascii) : N := (N_of_ascii c - 48)%N.

(** [s.replace(/\D/g, '')] *)
Definition digitsOnly (s : string) : string :=
  string_of_list_ascii (filter is_digit (chars s)).

(** Decimal digits of a natural number, no leading zero. *)
Definition of_N (n : N) : string := NilZero.string_of_uint (N.to_uint n).

Fixpoint repeat0 (k : nat) : string :=
  match k with
  | O => ""
  | S k' => String "0" (repeat0 k')
  end.

Fixpoint take (k : nat) (s : string) : string :=
  match k, s with
  | S k', String c r => String c (take k' r)
  | _, _ => ""
  end.

Fixpoint drop (k : nat) (s : string) : string :=
  match k, s with
  | S k', String _ r => drop k' r
  | _, _ => s
  end.

End JSString.

(** ** Regular expressions of the shape used by the e-mail pattern *)

Module Regex.

Inductive item : Type :=
| Lit (c : ascii)
| Plus (cls : ascii -> bool).

(** Whole-string match ([^ ... $]) of a sequence of items, with the
    backtracking of [+]. *)
Fixpoint matches (s : list ascii) (p : list item) {struct s} : bool :=
  match p, s with
  | [], [] => true
  | Lit c :: p', a :: s' => Ascii.eqb a c && matches s' p'
  | Plus cls :: p', a :: s' => cls a && (matches s' p' || matches s' p)
  | _, _ => false
  end.

Definition test (p : list item) (s : string) : bool :=
  matches (JSString.chars s) p.

(** [[^\s@]] *)
Definition not_space_at (c : ascii) : bool :=
  negb (JSString.is_space c || Ascii.eqb c "@").

(** [/^[^\s@]+@[^\s@]+\.[^\s@]+$/] *)
Definition email_pattern : list item :=
  [Plus not_space_at; Lit "@"; Plus not_space_at; Lit "."; Plus not_space_at].

End Regex.

(** ** Numbers: IEEE 754 binary64 *)

Module JSNumber.

Definition prec : Z := 53.
Definition emax : Z := 1024.

Definition number : Type := spec_float.

Definition NaN : number := S754_nan.
Definition mul : number -> number -> number := SFmul prec emax.
Definition div : number -> number -> number := SFdiv prec emax.

Definition isNaN (x : number) : bool :=
  match x with
  | S754_nan => true
  | _ => false
  end.

Definition is_finite (x : number) : bool :=
  match x with
  | S754_zero _ | S754_finite _ _ _ => true
  | _ => false
  end.

(** A number is falsy when it is [0], [-0] or [NaN]. *)
Definition truthy (x : number) : bool :=
  match x with
  | S754_zero _ | S754_nan => false
  | _ => true
  end.

(** The number nearest to [(-1)^neg * m * 10^e], ties to even: the value of
    a decimal literal [m] with decimal exponent [e]. *)
Definition of_decimal (neg : bool) (m : N) (e : Z) : number :=
  match m with
  | N0 => S754_zero neg
  | Npos p =>
      if (0 <=? e)%Z
      then binary_normalize prec emax (cond_Zopp neg (Z.pos p * 10 ^ e)) 0 neg
      else
        let '(q, e', l) :=
          SFdiv_core_binary prec emax (Z.pos p) 0 (10 ^ (- e)) 0 in
        binary_round_aux prec emax neg q e' l
  end.

Definition of_N (n : N) : number := of_decimal false n 0.

(** *** [parseFloat] *)

Import JSString.

Fixpoint skip_space (s : list ascii) : list ascii :=
  match s with
  | c :: r => if is_space c then skip_space r else s
  | [] => []
  end.

(** The longest run of decimal digits at the front of [s]: its value with
    [acc] as the digits read so far, how many digits there are, the rest. *)
Fixpoint read_digits (s : list ascii) (acc : N) (count : nat)
  : N * nat * list ascii :=
  match s with
  | c :: r =>
      if is_digit c
      then read_digits r (acc * 10 + digit_value c)%N (S count)
      else (acc, count, s)
  | [] => (acc, count, [])
  end.

(** [ExponentPart], when the text goes on with one: [e] or [E], a sign or
    none, at least one digit. *)
Definition read_exponent (s : list ascii) : Z :=
  match s with
  | c :: r =>
      if Ascii.eqb c "e" || Ascii.eqb c "E"
      then
        let '(neg, r') :=
          match r with
          | d :: r1 =>
              if Ascii.eqb d "-" then (true, r1)
              else if Ascii.eqb d "+" then (false, r1)
              else (false, r)
          | [] => (false, r)
          end in
        let '(v, k, _) := read_digits r' 0%N O in
        match k with
        | O => 0%Z
        | S _ => if neg then (- Z.of_N v)%Z else Z.of_N v
        end
      else 0%Z
  | [] => 0%Z
  end.

Definition starts_with_Infinity (s : list ascii) : bool :=
  String.eqb (string_of_list_ascii (firstn 8 s)) "Infinity".

(** The longest prefix that is a [StrUnsignedDecimalLiteral], as a number of
    sign [neg]; [NaN] when no prefix is one. *)
Definition read_unsigned (neg : bool) (s : list ascii) : number :=
  if starts_with_Infinity s then S754_infinity neg
  else
    let '(ip, ni, r1) := read_digits s 0%N O in
    match r1 with
    | "."%char :: r2 =>
        let '(m, nf, r3) := read_digits r2 ip O in
        match ni, nf with
        | O, O => NaN
        | _, _ => of_decimal neg m (read_exponent r3 - Z.of_nat nf)
        end
    | _ =>
        match ni with
        | O => NaN
        | S _ => of_decimal neg ip (read_exponent r1)
        end
    end.

Definition parseFloat (s : string) : number :=
  match skip_space (chars s) with
  | "-"%char :: r => read_unsigned true r
  | "+"%char :: r => read_unsigned false r
  | r => read_unsigned false r
  end.

(** *** [Number.prototype.toFixed] *)

(** The real value of a positive finite number, as a fraction. *)
Definition fraction (m : positive) (e : Z) : Z * Z :=
  if (0 <=? e)%Z then (Z.pos m * 2 ^ e, 1)%Z else (Z.pos m, 2 ^ (- e))%Z.

Definition same_number (a b : number) : bool :=
  match a, b with
  | S754_finite s1 m1 e1, S754_finite s2 m2 e2 =>
      Bool.eqb s1 s2 && Pos.eqb m1 m2 && Z.eqb e1 e2
  | _, _ => false
  end.

(** Does the integer [v] read back as the number [x]? *)
Definition reads_as (x : number) (v : Z) : bool :=
  same_number (binary_normalize prec emax v 0 false) x.

(** [Number::toString] picks the fewest significant digits that read back
    as [x], and among those the digits nearest to [x]. [X] is the value of
    [x], an integer of [n] decimal digits; [k] is the number of digits
    tried, [todo] how many more lengths there are to try. *)
Fixpoint shortest (x : number) (X : Z) (n : nat) (k : nat) (todo : nat) : Z :=
  match todo with
  | O => X
  | S todo' =>
      let step := (10 ^ Z.of_nat (n - k))%Z in
      let low := (X / step * step)%Z in
      let high := (low + step)%Z in
      match reads_as x low, reads_as x high with
      | true, true =>
          match (X - low ?= high - X)%Z with
          | Lt => low
          | Gt => high
          | Eq => if Z.even (X / step) then low else high
          end
      | true, false => low
      | false, true => high
      | false, false => shortest x X n (S k) todo'
      end
  end.

Fixpoint strip_zeros_rev (s : list ascii) : list ascii :=
  match s with
  | "0"%char :: r => strip_zeros_rev r
  | _ => s
  end.

Definition strip_trailing_zeros (s : string) : string :=
  string_of_list_ascii (rev (strip_zeros_rev (rev (chars s)))).

(** [Number::toString] of a positive finite number that is at least
    [10^21]: the exponential form [d.ddde+n]. *)
Definition toString_large (m : positive) (e : Z) : string :=
  let '(num, den) := fraction m e in
  let X := (num / den)%Z in
  let n := String.length (of_N (Z.to_N X)) in
  let v := shortest (binary_round prec emax false m e) X n 1 17 in
  let all := of_N (Z.to_N v) in
  let digits := strip_trailing_zeros all in
  let exponent := of_N (N.of_nat (String.length all - 1)) in
  match digits with
  | String d EmptyString => String d ("e+" ++ exponent)
  | String d r => String d ("." ++ r ++ "e+" ++ exponent)
  | EmptyString => all
  end.

(** The digits of [n] with a point before the last [f] of them. *)
Definition point (n : N) (f : nat) : string :=
  let m := of_N n in
  match f with
  | O => m
  | S _ =>
      let k := String.length m in
      let m := if (k <=? f)%nat then repeat0 (f + 1 - k) ++ m else m in
      let k := if (k <=? f)%nat then (f + 1)%nat else k in
      take (k - f) m ++ "." ++ drop (k - f) m
  end.

Definition toFixed (x : number) (fractionDigits : N) : completion string :=
  if (100 <? fractionDigits)%N
  then Throw "RangeError"
  else
    let f := N.to_nat fractionDigits in
    match x with
    | S754_nan => Return "NaN"
    | S754_infinity false => Return "Infinity"
    | S754_infinity true => Return "-Infinity"
    | S754_zero _ => Return (point 0 f)
    | S754_finite neg m e =>
        let s := if neg then "-" else "" in
        let '(num, den) := fraction m e in
        if (10 ^ 21 * den <=? num)%Z
        then Return (s ++ toString_large m e)
        else
          let n := ((2 * num * 10 ^ Z.of_N fractionDigits + den) / (2 * den))%Z in
          Return (s ++ point (Z.to_N n) f)
    end.

End JSNumber.

(** ** [app/constants/design-tokens.ts] *)

Module Tokens.

Import JSNumber.

Module VALIDATION.
Definition accountNumber_minLength : nat := 10.
Definition accountNumber_maxLength : nat := 10.
Definition email_pattern : list Regex.item := Regex.email_pattern.
Definition phone_minLength : nat := 7.
Definition phone_maxLength : nat := 15.
End VALIDATION.

(** The mock rates, keyed [<crypto>_TO_<fiat>]. *)
Definition EXCHANGE_RATES : gmap string number :=
  list_to_map
    [ ("ETH_TO_NGN", of_N 3500000);
      ("BTC_TO_NGN", of_N 45000000);
      ("USDT_TO_NGN", of_N 1600);
      ("ETH_TO_USD", of_N 2200);
      ("BTC_TO_USD", of_N 28000);
      ("USDT_TO_USD", of_N 1);
      ("ETH_TO_EUR", of_N 2000);
      ("BTC_TO_EUR", of_N 25500);
      ("USDT_TO_EUR", of_decimal false 92 (-2)) ].

Module API_DELAYS.
Definition exchangeRate : N := 300.
Definition accountVerification : N := 600.
Definition conversion : N := 800.
End API_DELAYS.

End Tokens.

(** ** [app/lib/utils.ts] *)

Module Utils.

Import JSNumber Tokens.

(** [`${fromCurrency}_TO_${toCurrency}`] *)
Definition rate_key (fromCurrency toCurrency : string) : string :=
  fromCurrency ++ "_TO_" ++ toCurrency.

(** [EXCHANGE_RATES[key] || fallback]. No property that every object
    inherits has a name with [_TO_] in it, so the table's own entries are all
    that a key of this shape can find. *)
Definition rate_or (key : string) (fallback : number) : number :=
  match EXCHANGE_RATES !! key with
  | Some rate => if truthy rate then rate else fallback
  | None => fallback
  end.

Definition calculateExchangeRate
    (amount : number) (fromCurrency toCurrency : string) : completion string :=
  let key := rate_key fromCurrency toCurrency in
  let rate := rate_or key (of_N 0) in
  let result := mul amount rate in
  toFixed result 2.

Definition calculateInverseRate
    (amount : number) (fromCurrency toCurrency : string) : completion string :=
  let key := rate_key fromCurrency toCurrency in
  let rate := rate_or key (of_N 1) in
  let result := div amount rate in
  toFixed result 4.

Definition isValidEmail (email : string) : bool :=
  Regex.test Regex.email_pattern email.

Definition isValidPhone (phone : string) : bool :=
  let digitsOnly := JSString.digitsOnly phone in
  (7 <=? String.length digitsOnly)%nat && (String.length digitsOnly <=? 15)%nat.

Definition safeParseFloat (value : string) (defaultValue : number) : number :=
  let parsed := parseFloat value in
  if isNaN parsed then defaultValue else parsed.

End Utils.

(** ** The timer queue *)

Module EventLoop.

Record timer (task : Type) : Type := Timer { due : N; callback : task }.
Arguments Timer {task} due callback.
Arguments due {task} t.
Arguments callback {task} t.

(** A mounted page: its state cells, the clock in milliseconds, and the
    callbacks that [setTimeout] has registered and that have not run yet,
    by expiry, those of equal expiry in the order they were registered. *)
Record world (page task : Type) : Type :=
  World { view : page; now : N; timers : list (timer task) }.
Arguments World {page task} view now timers.
Arguments view {page task} w.
Arguments now {page task} w.
Arguments timers {page task} w.

Section Loop.
Context {page task : Type}.
Variable fire : task -> page -> page.

Fixpoint enqueue (t : timer task) (q : list (timer task)) : list (timer task) :=
  match q with
  | [] => [t]
  | h :: r => if (due t <? due h)%N then t :: q else h :: enqueue t r
  end.

Definition setTimeout (cb : task) (delay : N) (w : world page task)
  : world page task :=
  World (view w) (now w) (enqueue (Timer (now w + delay)%N cb) (timers w)).

(** A synchronous change of the state cells. *)
Definition render (f : page -> page) (w : world page task) : world page task :=
  World (f (view w)) (now w) (timers w).

(** Runs the callbacks at the front of the queue that expire by [target]. *)
Fixpoint run_due (target : N) (q : list (timer task)) (p : page)
  : page * list (timer task) :=
  match q with
  | [] => (p, [])
  | h :: r =>
      if (due h <=? target)%N
      then run_due target r (fire (callback h) p)
      else (p, q)
  end.

Definition elapse (ms : N) (w : world page task) : world page task :=
  let target := (now w + ms)%N in
  let '(p, q) := run_due target (timers w) (view w) in
  World p target q.

End Loop.

End EventLoop.

(** ** [app/hooks/useFormValidation.ts] *)

Module Hooks.

Import Tokens.

Record contact_errors : Type :=
  ContactErrors { ce_email : option string; ce_phoneNumber : option string }.

(** [validateContact]: the errors it stores, and what it returns. *)
Definition validateContact (email phoneNumber : string) : contact_errors * bool :=
  let e :=
    if negb (JSString.truthy email) then Some "Email is required"
    else if negb (Regex.test VALIDATION.email_pattern email)
         then Some "Please enter a valid email address"
         else None in
  let p :=
    if negb (JSString.truthy phoneNumber) then Some "Phone number is required"
    else if (String.length phoneNumber <? VALIDATION.phone_minLength)%nat
         then Some "Please enter a valid phone number"
         else None in
  (ContactErrors e p,
   match e, p with
   | None, None => true
   | _, _ => false
   end).

End Hooks.

(** ** [app/page.tsx]: the conversion page *)

Module Home.

Import JSNumber EventLoop.

(** The keys of [errors]. *)
Inductive field : Type := PayFrom | PayTo.

Record errors_t : Type :=
  Errors { err_payFrom : option string; err_payTo : option string }.

(** [errors[f]] *)
Definition error_of (f : field) (e : errors_t) : option string :=
  match f with
  | PayFrom => err_payFrom e
  | PayTo => err_payTo e
  end.

(** [{ ...errors, f: undefined }] *)
Definition without (f : field) (e : errors_t) : errors_t :=
  match f with
  | PayFrom => Errors None (err_payTo e)
  | PayTo => Errors (err_payFrom e) None
  end.

Record state : Type := State {
  activeTab : string;
  isConverting : bool;
  isCalculating : bool;
  errors : errors_t;
  payFrom : string;
  payTo : string;
  payCurrency : string;
  receiveCurrency : string;
  payValue : string;
  receiveValue : string;
  (** the routes handed to [router.push], latest first *)
  pushed : list string
}.

Definition initial : state := {|
  activeTab := "Crypto to cash";
  isConverting := false;
  isCalculating := false;
  errors := Errors None None;
  payFrom := "";
  payTo := "";
  payCurrency := "ETH";
  receiveCurrency := "NGN";
  payValue := "1.00";
  receiveValue := "1.00";
  pushed := []
|}.

Definition setActiveTab (v : string) (s : state) : state :=
  State v (isConverting s) (isCalculating s) (errors s) (payFrom s) (payTo s)
    (payCurrency s) (receiveCurrency s) (payValue s) (receiveValue s) (pushed s).
Definition setIsConverting (v : bool) (s : state) : state :=
  State (activeTab s) v (isCalculating s) (errors s) (payFrom s) (payTo s)
    (payCurrency s) (receiveCurrency s) (payValue s) (receiveValue s) (pushed s).
Definition setIsCalculating (v : bool) (s : state) : state :=
  State (activeTab s) (isConverting s) v (errors s) (payFrom s) (payTo s)
    (payCurrency s) (receiveCurrency s) (payValue s) (receiveValue s) (pushed s).
Definition setErrors (v : errors_t) (s : state) : state :=
  State (activeTab s) (isConverting s) (isCalculating s) v (payFrom s) (payTo s)
    (payCurrency s) (receiveCurrency s) (payValue s) (receiveValue s) (pushed s).
Definition setPayFrom (v : string) (s : state) : state :=
  State (activeTab s) (isConverting s) (isCalculating s) (errors s) v (payTo s)
    (payCurrency s) (receiveCurrency s) (payValue s) (receiveValue s) (pushed s).
Definition setPayTo (v : string) (s : state) : state :=
  State (activeTab s) (isConverting s) (isCalculating s) (errors s) (payFrom s) v
    (payCurrency s) (receiveCurrency s) (payValue s) (receiveValue s) (pushed s).
Definition setPayCurrency (v : string) (s : state) : state :=
  State (activeTab s) (isConverting s) (isCalculating s) (errors s) (payFrom s)
    (payTo s) v (receiveCurrency s) (payValue s) (receiveValue s) (pushed s).
Definition setReceiveCurrency (v : string) (s : state) : state :=
  State (activeTab s) (isConverting s) (isCalculating s) (errors s) (payFrom s)
    (payTo s) (payCurrency s) v (payValue s) (receiveValue s) (pushed s).
Definition setPayValue (v : string) (s : state) : state :=
  State (activeTab s) (isConverting s) (isCalculating s) (errors s) (payFrom s)
    (payTo s) (payCurrency s) (receiveCurrency s) v (receiveValue s) (pushed s).
Definition setReceiveValue (v : string) (s : state) : state :=
  State (activeTab s) (isConverting s) (isCalculating s) (errors s) (payFrom s)
    (payTo s) (payCurrency s) (receiveCurrency s) (payValue s) v (pushed s).
Definition router_push (route : string) (s : state) : state :=
  State (activeTab s) (isConverting s) (isCalculating s) (errors s) (payFrom s)
    (payTo s) (payCurrency s) (receiveCurrency s) (payValue s) (receiveValue s)
    (route :: pushed s).

(** The callbacks this page hands to [setTimeout]. *)
Inductive task : Type :=
| RecalculateReceive (newValue : string)
| RecalculatePay (newValue : string)
| PushRecipientDetails.

(** [(parseFloat(newValue || "0") * 3500).toFixed(2)] *)
Definition payToReceive (newValue : string) : completion string :=
  toFixed (mul (parseFloat (JSString.or_else newValue "0")) (of_N 3500)) 2.

(** [(parseFloat(newValue || "0") / 3500).toFixed(4)] *)
Definition receiveToPay (newValue : string) : completion string :=
  toFixed (div (parseFloat (JSString.or_else newValue "0")) (of_N 3500)) 4.

(** The body of a callback. One that throws has called no setter yet. *)
Definition fire (t : task) (s : state) : state :=
  match t with
  | RecalculateReceive newValue =>
      match payToReceive newValue with
      | Return calculatedValue =>
          setIsCalculating false (setReceiveValue calculatedValue s)
      | Throw _ => s
      end
  | RecalculatePay newValue =>
      match receiveToPay newValue with
      | Return calculatedValue =>
          setIsCalculating false (setPayValue calculatedValue s)
      | Throw _ => s
      end
  | PushRecipientDetails => router_push "/recipient-details" s
  end.

Definition world : Type := EventLoop.world state task.

Definition mount : world := World initial 0 [].

Definition handlePayValueChange (newValue : string) (w : world) : world :=
  setTimeout (RecalculateReceive newValue) 300
    (render (fun s => setIsCalculating true (setPayValue newValue s)) w).

Definition handleReceiveValueChange (newValue : string) (w : world) : world :=
  setTimeout (RecalculatePay newValue) 300
    (render (fun s => setIsCalculating true (setReceiveValue newValue s)) w).

(** [newErrors] of [validateForm]. *)
Definition newErrors (s : state) : errors_t :=
  Errors
    (if negb (JSString.truthy (payFrom s))
     then Some "Please select a wallet to pay from" else None)
    (if negb (JSString.truthy (payTo s))
     then Some "Please select a wallet to pay to" else None).

(** [Object.keys(e).length === 0] *)
Definition no_keys (e : errors_t) : bool :=
  match e with
  | Errors None None => true
  | _ => false
  end.

(** [validateForm]: the state with the errors stored, and the result. *)
Definition validateForm (s : state) : state * bool :=
  (setErrors (newErrors s) s, no_keys (newErrors s)).

Definition handleConvert (w : world) : world :=
  let '(s, ok) := validateForm (view w) in
  let w := render (fun _ => s) w in
  if negb ok then w
  else setTimeout PushRecipientDetails 800 (render (setIsConverting true) w).

(** The [onChange] of the "Pay from" and "Pay to" selects. *)
Definition onPayFromChange (val : string) (s : state) : state :=
  setErrors (without PayFrom (errors s)) (setPayFrom val s).
Definition onPayToChange (val : string) (s : state) : state :=
  setErrors (without PayTo (errors s)) (setPayTo val s).

(** The [onChange] that the page gives to the control of field [f]. *)
Definition onFieldChange (f : field) (val : string) (s : state) : state :=
  match f with
  | PayFrom => onPayFromChange val s
  | PayTo => onPayToChange val s
  end.

Inductive event : Type :=
| TabChosen (tab : string)
| PayValueEdited (newValue : string)
| ReceiveValueEdited (newValue : string)
| PayCurrencyChosen (currency : string)
| ReceiveCurrencyChosen (currency : string)
| PayFromChosen (val : string)
| PayToChosen (val : string)
| ConvertClicked
| Wait (ms : N).

(** The "Convert now" button is rendered with [disabled={isConverting}]; a
    disabled button does not call [onClick]. *)
Definition step (e : event) (w : world) : world :=
  match e with
  | TabChosen tab => render (setActiveTab tab) w
  | PayValueEdited newValue => handlePayValueChange newValue w
  | ReceiveValueEdited newValue => handleReceiveValueChange newValue w
  | PayCurrencyChosen c => render (setPayCurrency c) w
  | ReceiveCurrencyChosen c => render (setReceiveCurrency c) w
  | PayFromChosen val => render (onPayFromChange val) w
  | PayToChosen val => render (onPayToChange val) w
  | ConvertClicked => if isConverting (view w) then w else handleConvert w
  | Wait ms => elapse fire ms w
  end.

Definition run (es : list event) (w : world) : world :=
  fold_left (fun w e => step e w) es w.

End Home.

(** ** [app/recipient-details/page.tsx]: the recipient form *)

Module RecipientDetails.

Import EventLoop.

(** [formType]: ["bank"] or ["email"]. *)
Inductive form_type : Type := form_bank | form_email.

Definition is_bank (f : form_type) : bool :=
  match f with
  | form_bank => true
  | form_email => false
  end.

(** [Country] of [app/types/checkout.ts]. *)
Record Country : Type := { name : string; code : string; flag : string }.

(** The keys of [errors]. *)
Inductive field : Type := Bank | AccountNumber | Email | PhoneNumber.

Record errors_t : Type := Errors {
  err_bank : option string;
  err_accountNumber : option string;
  err_email : option string;
  err_phoneNumber : option string
}.

(** [errors[f]] *)
Definition error_of (f : field) (e : errors_t) : option string :=
  match f with
  | Bank => err_bank e
  | AccountNumber => err_accountNumber e
  | Email => err_email e
  | PhoneNumber => err_phoneNumber e
  end.

(** [{ ...errors, f: undefined }] *)
Definition without (f : field) (e : errors_t) : errors_t :=
  match f with
  | Bank => Errors None (err_accountNumber e) (err_email e) (err_phoneNumber e)
  | AccountNumber => Errors (err_bank e) None (err_email e) (err_phoneNumber e)
  | Email => Errors (err_bank e) (err_accountNumber e) None (err_phoneNumber e)
  | PhoneNumber => Errors (err_bank e) (err_accountNumber e) (err_email e) None
  end.

(** [{}] *)
Definition no_errors : errors_t := Errors None None None None.

(** [Object.keys(e).length === 0] *)
Definition no_keys (e : errors_t) : bool :=
  match e with
  | Errors None None None None => true
  | _ => false
  end.

(** What the page asks of the router. *)
Inductive navigation : Type :=
| router_push (route : string)
| router_back.

Record state : Type := State {
  formType : form_type;
  selectedBank : string;
  accountNumber : string;
  accountName : string;
  email : string;
  country : Country;
  phoneNumber : string;
  isProcessing : bool;
  isVerifying : bool;
  errors : errors_t;
  (** the calls made on the router, latest first *)
  routed : list navigation
}.

(** The cells as [useState] initialises them; [countries0] is
    [countries[0]] of the country list. *)
Definition initial (countries0 : Country) : state := {|
  formType := form_bank;
  selectedBank := "";
  accountNumber := "";
  accountName := "ODUTUGA GBEKE";
  email := "";
  country := countries0;
  phoneNumber := "";
  isProcessing := false;
  isVerifying := false;
  errors := no_errors;
  routed := []
|}.

Definition setFormType (v : form_type) (s : state) : state :=
  State v (selectedBank s) (accountNumber s) (accountName s) (email s) (country s)
    (phoneNumber s) (isProcessing s) (isVerifying s) (errors s) (routed s).
Definition setSelectedBank (v : string) (s : state) : state :=
  State (formType s) v (accountNumber s) (accountName s) (email s) (country s)
    (phoneNumber s) (isProcessing s) (isVerifying s) (errors s) (routed s).
Definition setAccountNumber (v : string) (s : state) : state :=
  State (formType s) (selectedBank s) v (accountName s) (email s) (country s)
    (phoneNumber s) (isProcessing s) (isVerifying s) (errors s) (routed s).
Definition setAccountName (v : string) (s : state) : state :=
  State (formType s) (selectedBank s) (accountNumber s) v (email s) (country s)
    (phoneNumber s) (isProcessing s) (isVerifying s) (errors s) (routed s).
Definition setEmail (v : string) (s : state) : state :=
  State (formType s) (selectedBank s) (accountNumber s) (accountName s) v (country s)
    (phoneNumber s) (isProcessing s) (isVerifying s) (errors s) (routed s).
Definition setCountry (v : Country) (s : state) : state :=
  State (formType s) (selectedBank s) (accountNumber s) (accountName s) (email s) v
    (phoneNumber s) (isProcessing s) (isVerifying s) (errors s) (routed s).
Definition setPhoneNumber (v : string) (s : state) : state :=
  State (formType s) (selectedBank s) (accountNumber s) (accountName s) (email s)
    (country s) v (isProcessing s) (isVerifying s) (errors s) (routed s).
Definition setIsProcessing (v : bool) (s : state) : state :=
  State (formType s) (selectedBank s) (accountNumber s) (accountName s) (email s)
    (country s) (phoneNumber s) v (isVerifying s) (errors s) (routed s).
Definition setIsVerifying (v : bool) (s : state) : state :=
  State (formType s) (selectedBank s) (accountNumber s) (accountName s) (email s)
    (country s) (phoneNumber s) (isProcessing s) v (errors s) (routed s).
Definition setErrors (v : errors_t) (s : state) : state :=
  State (formType s) (selectedBank s) (accountNumber s) (accountName s) (email s)
    (country s) (phoneNumber s) (isProcessing s) (isVerifying s) v (routed s).
Definition navigate (v : navigation) (s : state) : state :=
  State (formType s) (selectedBank s) (accountNumber s) (accountName s) (email s)
    (country s) (phoneNumber s) (isProcessing s) (isVerifying s) (errors s)
    (v :: routed s).

(** The callbacks this page hands to [setTimeout]. *)
Inductive task : Type :=
| VerificationDone
| ShowEmailForm
| PushPayment.

Definition fire (t : task) (s : state) : state :=
  match t with
  | VerificationDone => setIsVerifying false (setAccountName "ODUTUGA GBEKE" s)
  | ShowEmailForm =>
      setIsProcessing false (setErrors no_errors (setFormType form_email s))
  | PushPayment => navigate (router_push "/payment") s
  end.

Definition world : Type := EventLoop.world state task.

Definition mount (countries0 : Country) : world := World (initial countries0) 0 [].

Definition handleAccountNumberChange (value : string) (w : world) : world :=
  let w :=
    render (fun s => setErrors (without AccountNumber (errors s))
                       (setAccountNumber value s)) w in
  if (String.length value =? 10)%nat
  then
    setTimeout VerificationDone 600
      (render (fun s => setAccountName "" (setIsVerifying true s)) w)
  else render (setAccountName "") w.

(** [newErrors] of [validateBankForm]. *)
Definition bankErrors (s : state) : errors_t :=
  Errors
    (if negb (JSString.truthy (selectedBank s))
     then Some "Please select a bank" else None)
    (if negb (JSString.truthy (accountNumber s))
     then Some "Account number is required"
     else if (String.length (accountNumber s) <? 10)%nat
          then Some "Account number must be at least 10 digits"
          else None)
    None None.

Definition validateBankForm (s : state) : state * bool :=
  (setErrors (bankErrors s) s, no_keys (bankErrors s)).

(** [newErrors] of [validateEmailForm]. *)
Definition emailErrors (s : state) : errors_t :=
  Errors None None
    (if negb (JSString.truthy (email s))
     then Some "Email is required"
     else if negb (Regex.test Regex.email_pattern (email s))
          then Some "Please enter a valid email"
          else None)
    (if negb (JSString.truthy (phoneNumber s))
     then Some "Phone number is required"
     else if (String.length (phoneNumber s) <? 7)%nat
          then Some "Please enter a valid phone number"
          else None).

Definition validateEmailForm (s : state) : state * bool :=
  (setErrors (emailErrors s) s, no_keys (emailErrors s)).

Definition handleNext (w : world) : world :=
  match formType (view w) with
  | form_bank =>
      let '(s, ok) := validateBankForm (view w) in
      let w := render (fun _ => s) w in
      if ok
      then setTimeout ShowEmailForm 500 (render (setIsProcessing true) w)
      else w
  | form_email =>
      let '(s, ok) := validateEmailForm (view w) in
      let w := render (fun _ => s) w in
      if ok
      then setTimeout PushPayment 800 (render (setIsProcessing true) w)
      else w
  end.

(** The [onClick] of the back arrow. *)
Definition handleBack (s : state) : state :=
  match formType s with
  | form_email => setFormType form_bank s
  | form_bank => navigate router_back s
  end.

(** The [onChange] of the bank select, of the e-mail input and of the phone
    number input. *)
Definition onBankChange (val : string) (s : state) : state :=
  setErrors (without Bank (errors s)) (setSelectedBank val s).
Definition onEmailChange (value : string) (s : state) : state :=
  setErrors (without Email (errors s)) (setEmail value s).
Definition onChangeNumber (value : string) (s : state) : state :=
  setErrors (without PhoneNumber (errors s)) (setPhoneNumber value s).

(** The [onChange] that the page gives to the control of field [f]. *)
Definition onFieldChange (f : field) (value : string) (w : world) : world :=
  match f with
  | Bank => render (onBankChange value) w
  | AccountNumber => handleAccountNumberChange value w
  | Email => render (onEmailChange value) w
  | PhoneNumber => render (onChangeNumber value) w
  end.

(** [disabled] of the "Next" button. *)
Definition nextDisabled (s : state) : bool :=
  isProcessing s || (is_bank (formType s) && isVerifying s).

Inductive event : Type :=
| BankChosen (val : string)
| AccountNumberEdited (value : string)
| EmailEdited (value : string)
| CountryChosen (c : Country)
| PhoneNumberEdited (value : string)
| NextClicked
| BackClicked
| Wait (ms : N).

(** The bank select and the account number input are rendered on the bank
    form only, the e-mail and phone inputs on the e-mail form only; a
    control that is not rendered sends nothing, and a disabled button does
    not call [onClick]. *)
Definition step (e : event) (w : world) : world :=
  match e, formType (view w) with
  | BankChosen val, form_bank => render (onBankChange val) w
  | AccountNumberEdited value, form_bank => handleAccountNumberChange value w
  | EmailEdited value, form_email => render (onEmailChange value) w
  | CountryChosen c, form_email => render (setCountry c) w
  | PhoneNumberEdited value, form_email => render (onChangeNumber value) w
  | NextClicked, _ => if nextDisabled (view w) then w else handleNext w
  | BackClicked, _ => render handleBack w
  | Wait ms, _ => elapse fire ms w
  | _, _ => w
  end.

Definition run (es : list event) (w : world) : world :=
  fold_left (fun w e => step e w) es w.

(** The states the page can be in: those that events lead to from the
    freshly mounted page. *)
Inductive reachable (countries0 : Country) : world -> Prop :=
| reachable_mount : reachable countries0 (mount countries0)
| reachable_step e w :
    reachable countries0 w -> reachable countries0 (step e w).

End RecipientDetails.

(** ** [app/lib/utils.ts]: the text helpers *)

Module Text.

Import JSString.

(** [toLowerCase] of one code unit below 256: the letters A to Z, and the
    Latin-1 capitals but the multiplication sign. *)
Definition lower (c : ascii) : ascii :=
  let n := N_of_ascii c in
  if (((65 <=? n) && (n <=? 90))
      || (((192 <=? n) && (n <=? 222)) && negb (n =? 215)))%N
  then ascii_of_N (n + 32)
  else c.

Definition toLowerCase (s : string) : string :=
  string_of_list_ascii (map lower (chars s)).

(** [replace(/\s+/g, '-')]: one dash for each run of white space; [in_run]
    says that the character before was white space. *)
Fixpoint dash_spaces (in_run : bool) (s : list ascii) : list ascii :=
  match s with
  | [] => []
  | c :: r =>
      if is_space c
      then if in_run then dash_spaces true r else "-"%char :: dash_spaces true r
      else c :: dash_spaces false r
  end.

(** [[a-z0-9-]] *)
Definition is_slug_char (c : ascii) : bool :=
  let n := N_of_ascii c in
  (((97 <=? n) && (n <=? 122)) || ((48 <=? n) && (n <=? 57)) || (n =? 45))%N.

(** [label.toLowerCase().replace(/\s+/g, '-').replace(/[^a-z0-9-]/g, '')] *)
Definition slug (label : string) : string :=
  string_of_list_ascii
    (List.filter is_slug_char (dash_spaces false (chars (toLowerCase label)))).

Definition generateInputId (prefix label : string) : string :=
  prefix ++ "-" ++ slug label.

(** [s.slice(0, e)] for an integer [e]: a negative [e] counts from the end. *)
Definition slice0 (s : string) (e : Z) : string :=
  let len := Z.of_nat (String.length s) in
  let final := if (e <? 0)%Z then Z.max (len + e) 0 else Z.min e len in
  take (Z.to_nat final) s.

(** [maxLength] is an integer. *)
Definition truncateText (text : string) (maxLength : Z) : string :=
  if (Z.of_nat (String.length text) <=? maxLength)%Z
  then text
  else slice0 text maxLength ++ "...".

(** An argument of [cn]: [string | boolean | undefined | null]. *)
Inductive class_value : Type :=
| class_string (s : string)
| class_boolean (b : bool)
| class_undefined
| class_null.

(** [Boolean(v)] *)
Definition Boolean (v : class_value) : bool :=
  match v with
  | class_string s => truthy s
  | class_boolean b => b
  | class_undefined | class_null => false
  end.

(** The text that [join] makes of an element. *)
Definition element_text (v : class_value) : string :=
  match v with
  | class_string s => s
  | class_boolean true => "true"
  | class_boolean false => "false"
  | class_undefined | class_null => ""
  end.

(** [Array.prototype.join] *)
Fixpoint join (separator : string) (l : list string) : string :=
  match l with
  | [] => ""
  | [a] => a
  | a :: r => a ++ separator ++ join separator r
  end.

(** [classes.filter(Boolean).join(' ')] *)
Definition cn (classes : list class_value) : string :=
  join " " (map element_text (List.filter Boolean classes)).

End Text.

(** ** [app/lib/utils.ts]: [debounce] *)

Module Debounce.

Import EventLoop.

Section Debounced.
Context {A : Type}.

(** What the closure of [debounce] holds: [timeout]; the identifier that
    [setTimeout] hands out next, a positive number; and, for the record, the
    arguments [func] has been called with, latest first. *)
Record cell : Type := Cell {
  timeout : option nat;
  next_id : nat;
  calls : list A
}.

(** A pending [later]: its timer identifier and the arguments it captured. *)
Definition task : Type := (nat * A)%type.

(** [later]: [timeout = null; func(...args)]. *)
Definition fire (t : task) (c : cell) : cell :=
  Cell None (next_id c) (snd t :: calls c).

Definition world : Type := EventLoop.world cell task.





End Debounced.

Arguments cell A : clear implicits.
Arguments world A : clear implicits.

End Debounce.

(** ** [app/hooks/useFormValidation.ts]: the other hooks *)

Module FormHooks.

Import Tokens.

Record checkout_errors : Type :=
  CheckoutErrors { ck_payFrom : option string; ck_payTo : option string }.

(** [validateCheckout]: the errors it stores, and what it returns. *)
Definition validateCheckout (payFrom payTo : string) : checkout_errors * bool :=
  let f :=
    if negb (JSString.truthy payFrom)
    then Some "Please select a wallet to pay from" else None in
  let t :=
    if negb (JSString.truthy payTo)
    then Some "Please select a wallet to pay to" else None in
  (CheckoutErrors f t,
   match f, t with
   | None, None => true
   | _, _ => false
   end).

Record bank_errors : Type :=
  BankErrors { bk_bank : option string; bk_accountNumber : option string }.

(** [validateBankDetails]: the errors it stores, and what it returns. *)
Definition validateBankDetails (selectedBank accountNumber : string)
  : bank_errors * bool :=
  let b :=
    if negb (JSString.truthy selectedBank)
    then Some "Please select a bank" else None in
  let a :=
    if negb (JSString.truthy accountNumber)
    then Some "Account number is required"
    else if (String.length accountNumber <? VALIDATION.accountNumber_minLength)%nat
         then Some ("Account number must be at least "
                    ++ JSString.of_N (N.of_nat VALIDATION.accountNumber_minLength)
                    ++ " digits")
         else None in
  (BankErrors b a,
   match b, a with
   | None, None => true
   | _, _ => false
   end).

End FormHooks.

(** ** [app/hooks/useTransactionOptions.tsx] *)

Module Options.

(** The labels of the options, in order; the icons are left out. *)
Definition payCurrencyOptions : list string := ["ETH"; "BTC"; "USDT"].
Definition receiveCurrencyOptions : list string := ["NGN"; "USD"; "EUR"].

End Options.

(** ** The states of the conversion page *)

Module Journey.

(** The states the conversion page can be in: those that events lead to from
    the freshly mounted page. *)
Inductive reachable : Home.world -> Prop :=
| reachable_mount : reachable Home.mount
| reachable_step e w : reachable w -> reachable (Home.step e w).

End Journey.

(** ** Shapes of the timer queue *)

Module Queue.

Import EventLoop.

Section Shapes.
Context {page task : Type}.

(** Expiries in the order of the queue never go down. *)
Fixpoint sorted (q : list (timer task)) : Prop :=
  match q with
  | [] => True
  | h :: r => (forall t, In t r -> (due h <= due t)%N) /\ sorted r
  end.

(** How many pending callbacks [sel] selects. *)
Definition pending (sel : task -> bool) (q : list (timer task)) : nat :=
  List.length (List.filter (fun t => sel (callback t)) q).

(** A flag of the page that the callbacks selected by [clears] reset: the
    queue is in order, such a callback expires within [delay], and while the
    flag is set one is pending. *)
Definition flag_backed
    (flag : page -> bool) (clears : task -> bool) (delay : N)
    (w : world page task) : Prop :=
  sorted (timers w)
  /\ (forall t, In t (timers w) -> clears (callback t) = true ->
      (due t <= now w + delay)%N)
  /\ (flag (view w) = true ->
      exists t, In t (timers w) /\ clears (callback t) = true).

End Shapes.

End Queue.

(** ** Kinds of pending callbacks *)

Module Kinds.

Definition is_verification (t : RecipientDetails.task) : bool :=
  match t with
  | RecipientDetails.VerificationDone => true
  | _ => false
  end.

Definition is_show_email (t : RecipientDetails.task) : bool :=
  match t with
  | RecipientDetails.ShowEmailForm => true
  | _ => false
  end.

Definition is_push_payment (t : RecipientDetails.task) : bool :=
  match t with
  | RecipientDetails.PushPayment => true
  | _ => false
  end.

(** How many of the calls on the router are [router.push]. *)
Definition pushes (l : list RecipientDetails.navigation) : nat :=
  List.length
    (List.filter
       (fun n => match n with
                 | RecipientDetails.router_push _ => true
                 | RecipientDetails.router_back => false
                 end) l).

Definition is_recalculation (t : Home.task) : bool :=
  match t with
  | Home.RecalculateReceive _ | Home.RecalculatePay _ => true
  | Home.PushRecipientDetails => false
  end.

Definition is_push_recipient (t : Home.task) : bool :=
  match t with
  | Home.PushRecipientDetails => true
  | _ => false
  end.

End Kinds.

(** ** Sample data *)

Module Samples.

(** The first country of the example list in [app/components/Input.tsx]. *)
Definition nigeria : RecipientDetails.Country :=
  {| RecipientDetails.name := "Nigeria";
     RecipientDetails.code := "+234";
     RecipientDetails.flag := "NG" |}.

End Samples.

(** * Properties *)

(** ** The timer queue *)

Module EventLoopFacts.

Import EventLoop.

(** Runs a queue whose expiries are sums over one clock reading: every
    comparison of two expiries is settled by linear arithmetic. *)
Ltac settle_queue :=
  repeat
    (cbn [view now timers enqueue run_due due callback];
     match goal with
     | |- context [(?a <=? ?b)%N] => destruct (N.leb_spec a b); [try lia | try lia]
     | |- context [(?a <? ?b)%N] => destruct (N.ltb_spec a b); [try lia | try lia]
     end);
  cbn [view now timers enqueue run_due due callback].

Section Loop.
Context {page task : Type}.
Variable fire : task -> page -> page.

(** A callback registered for the instant [due t] runs last among those
    that expire by then. *)
Lemma run_due_enqueue (t : timer task) (q : list (timer task)) (p : page) :
  run_due fire (due t) (enqueue t q) p =
  (fire (callback t) (fst (run_due fire (due t) q p)),
   snd (run_due fire (due t) q p)).
Proof.
  revert p. induction q as [|h r IH]; intros p; cbn [enqueue run_due].
  - rewrite N.leb_refl. reflexivity.
  - destruct (N.ltb_spec (due t) (due h)) as [Hlt|Hge]; cbn [run_due].
    + rewrite N.leb_refl.
      destruct (N.leb_spec (due h) (due t)) as [Hle|_]; [lia|reflexivity].
    + destruct (N.leb_spec (due h) (due t)) as [_|Hgt]; [apply IH|lia].
Qed.

(** Waiting exactly the delay of a timer that was just set: everything
    else that comes due runs first, then the new callback. *)
Lemma elapse_setTimeout (cb : task) (delay : N) (w : world page task) :
  elapse fire delay (setTimeout cb delay w) =
  World (fire cb (view (elapse fire delay w)))
        (now w + delay)%N
        (timers (elapse fire delay w)).
Proof.
  unfold elapse, setTimeout. cbn [view now timers].
  change (now w + delay)%N with (due (Timer (now w + delay)%N cb)) at 1.
  rewrite run_due_enqueue. cbn [due callback].
  destruct (run_due fire (now w + delay)%N (timers w) (view w)) as [p q].
  reflexivity.
Qed.

(** A synchronous change of the cells leaves the clock and the queue. *)
Lemma timers_render (f : page -> page) (w : world page task) :
  timers (render f w) = timers w /\ now (render f w) = now w.
Proof. split; reflexivity. Qed.

End Loop.

End EventLoopFacts.

(** ** Numbers *)

Module JSNumberFacts.

Import JSNumber.

(** [toFixed] throws only for more than 100 fraction digits. *)
Lemma toFixed_returns (x : number) (f : N) :
  (f <= 100)%N -> exists s, toFixed x f = Return s.
Proof.
  intros Hf. unfold toFixed.
  destruct (N.ltb_spec 100 f) as [Hgt|_]; [lia|].
  destruct x as [s|s| |s m e]; try destruct s; eauto.
  all: destruct (fraction m e) as [num den];
    destruct (10 ^ 21 * den <=? num)%Z; eauto.
Qed.

(** A finite amount times zero is a zero, of either sign. *)
Lemma mul_zero_finite (x : number) :
  is_finite x = true -> exists s, mul x (of_N 0) = S754_zero s.
Proof.
  destruct x as [s|s| |s m e]; cbn; intros H; try discriminate; eauto.
Qed.

(** [NaN] and the infinities times zero are [NaN]. *)
Lemma mul_zero_not_finite (x : number) :
  is_finite x = false -> mul x (of_N 0) = NaN.
Proof.
  destruct x as [s|s| |s m e]; cbn; intros H; try discriminate; reflexivity.
Qed.

Lemma toFixed_zero_2 (s : bool) : toFixed (S754_zero s) 2 = Return "0.00".
Proof. reflexivity. Qed.

End JSNumberFacts.

(** ** The conversion page *)

Module HomeFacts.

Import JSNumber EventLoop EventLoopFacts Home.

Lemma payToReceive_returns (v : string) : exists c, payToReceive v = Return c.
Proof. apply JSNumberFacts.toFixed_returns. lia. Qed.

Lemma receiveToPay_returns (v : string) : exists c, receiveToPay v = Return c.
Proof. apply JSNumberFacts.toFixed_returns. lia. Qed.

(** What the completion of a pay-amount edit leaves in the cells. *)
Lemma fire_RecalculateReceive (v : string) (s : state) :
  Return (receiveValue (fire (RecalculateReceive v) s)) = payToReceive v /\
  isCalculating (fire (RecalculateReceive v) s) = false.
Proof.
  unfold fire. destruct (payToReceive_returns v) as [c Hc]. rewrite Hc.
  split; reflexivity.
Qed.

Lemma fire_RecalculatePay (v : string) (s : state) :
  Return (payValue (fire (RecalculatePay v) s)) = receiveToPay v /\
  isCalculating (fire (RecalculatePay v) s) = false.
Proof.
  unfold fire. destruct (receiveToPay_returns v) as [c Hc]. rewrite Hc.
  split; reflexivity.
Qed.

(** Whatever else is pending, 300 ms after a pay-amount edit the receive
    amount is that edit's conversion, computed with the factor 3500 whatever
    the two currencies are. *)
Lemma pay_edit_settles (v : string) (w : world) :
  Return (receiveValue (view (step (Wait 300) (step (PayValueEdited v) w))))
  = payToReceive v /\
  isCalculating (view (step (Wait 300) (step (PayValueEdited v) w))) = false.
Proof.
  cbn [step]. unfold handlePayValueChange.
  rewrite elapse_setTimeout. cbn [view].
  apply fire_RecalculateReceive.
Qed.

Lemma receive_edit_settles (v : string) (w : world) :
  Return (payValue (view (step (Wait 300) (step (ReceiveValueEdited v) w))))
  = receiveToPay v /\
  isCalculating (view (step (Wait 300) (step (ReceiveValueEdited v) w))) = false.
Proof.
  cbn [step]. unfold handleReceiveValueChange.
  rewrite elapse_setTimeout. cbn [view].
  apply fire_RecalculatePay.
Qed.

(** C1, as the code has it. When a pay-amount edit [v1] is followed by a
    second one [v2] before the first delay of 300 ms is over, the receive
    amount holds the conversion of [v2] once the delay of the second edit is
    over, and with nothing else pending it keeps it however long one waits.
    The completion of the first edit is not cancelled: with nothing else
    pending and the second edit strictly later than the first, the receive
    amount holds the conversion of [v1] at the instant the first delay is
    over. *)
Theorem second_edit_settles_last (w : world) (v1 v2 : string) (dt : N) :
  (dt < 300)%N ->
  Return (receiveValue (view
    (run [PayValueEdited v1; Wait dt; PayValueEdited v2; Wait 300] w)))
  = payToReceive v2
  /\
  (timers w = [] -> forall later : N,
   Return (receiveValue (view
     (run [PayValueEdited v1; Wait dt; PayValueEdited v2; Wait 300; Wait later]
        w)))
   = payToReceive v2)
  /\
  (timers w = [] -> (0 < dt)%N ->
   Return (receiveValue (view
     (run [PayValueEdited v1; Wait dt; PayValueEdited v2; Wait (300 - dt)] w)))
   = payToReceive v1).
Proof.
  intros Hdt. split; [|split].
  - unfold run. cbn [fold_left]. apply pay_edit_settles.
  - intros Hq later. destruct w as [s n q]. cbn [timers] in Hq. subst q.
    unfold run. cbn [fold_left step].
    unfold handlePayValueChange, setTimeout, render, elapse.
    settle_queue. apply fire_RecalculateReceive.
  - intros Hq Hpos. destruct w as [s n q]. cbn [timers] in Hq. subst q.
    unfold run. cbn [fold_left step].
    unfold handlePayValueChange, setTimeout, render, elapse.
    settle_queue. apply fire_RecalculateReceive.
Qed.

(** The first edit is ["1"], the second ["2"] comes 100 ms later. *)
Lemma second_edit_settles_last_witness :
  Return (receiveValue (view
    (run [PayValueEdited "1"; Wait 100; PayValueEdited "2"; Wait 300] mount)))
  = payToReceive "2"
  /\
  Return (receiveValue (view
    (run [PayValueEdited "1"; Wait 100; PayValueEdited "2"; Wait (300 - 100)]
       mount)))
  = payToReceive "1".
Proof.
  destruct (second_edit_settles_last mount "1" "2" 100) as (H1 & _ & H2).
  - reflexivity.
  - split; [exact H1 | apply H2; reflexivity].
Defined.

(** C1, as the claim has it, fails: ["1"] is edited, ["2"] is edited 100 ms
    later, and 200 ms after that, which is after the second edit, the receive
    amount is ["3500.00"], the conversion of ["1"], not that of ["2"]. *)
Lemma superseded_edit_still_writes :
  receiveValue (view
    (run [PayValueEdited "1"; Wait 100; PayValueEdited "2"; Wait 200] mount))
  = "3500.00"
  /\ payToReceive "1" = Return "3500.00"
  /\ payToReceive "2" = Return "7000.00".
Proof. repeat split; vm_compute; reflexivity. Qed.

(** C2, at the input where the code departs from it. With ETH and NGN
    selected, as they are when the page is mounted, editing the pay amount to
    ["2"] leaves ["7000.00"] in the receive amount after the delay: the handler
    multiplies by 3500 whatever the currencies are. The rate table has
    3,500,000 for this pair, and [calculateExchangeRate], which reads the
    table, gives ["7000000.00"]. *)
Theorem pay_edit_uses_fixed_factor :
  payCurrency (view mount) = "ETH"
  /\ receiveCurrency (view mount) = "NGN"
  /\ receiveValue (view (run [PayValueEdited "2"; Wait 300] mount)) = "7000.00"
  /\ Utils.calculateExchangeRate (parseFloat "2") "ETH" "NGN"
     = Return "7000000.00".
Proof. repeat split; vm_compute; reflexivity. Qed.

(** C3, at the input where the code departs from it. The amount ["abc"] is
    not a number: after the delay the opposite field shows ["NaN"], in either
    direction. Only the empty string is read as zero. [safeParseFloat], which
    the handlers do not call, turns ["abc"] into zero. *)
Theorem non_numeric_amount_shows_NaN :
  receiveValue (view (run [PayValueEdited "abc"; Wait 300] mount)) = "NaN"
  /\ payValue (view (run [ReceiveValueEdited "abc"; Wait 300] mount)) = "NaN"
  /\ receiveValue (view (run [PayValueEdited ""; Wait 300] mount)) = "0.00"
  /\ toFixed (mul (Utils.safeParseFloat "abc" (of_N 0)) (of_N 3500)) 2
     = Return "0.00".
Proof. repeat split; vm_compute; reflexivity. Qed.

End HomeFacts.

(** ** The conversion helpers of [utils.ts] *)

Module UtilsFacts.

Import JSNumber Tokens Utils.

Lemma rate_or_absent (key : string) (fallback : number) :
  EXCHANGE_RATES !! key = None -> rate_or key fallback = fallback.
Proof. intros H. unfold rate_or. rewrite H. reflexivity. Qed.

(** C6, as the code has it. For a pair of currencies that the rate table
    does not have, the forward conversion of a finite amount is ["0.00"], the
    rate being taken as 0; that of [NaN] or of an infinite amount is ["NaN"].
    The inverse conversion divides by 1. Neither throws. *)
Theorem absent_pair_falls_back
    (amount : number) (fromCurrency toCurrency : string) :
  EXCHANGE_RATES !! rate_key fromCurrency toCurrency = None ->
  (is_finite amount = true ->
   calculateExchangeRate amount fromCurrency toCurrency = Return "0.00")
  /\ (is_finite amount = false ->
      calculateExchangeRate amount fromCurrency toCurrency = Return "NaN")
  /\ calculateInverseRate amount fromCurrency toCurrency
     = toFixed (div amount (of_N 1)) 4
  /\ exists s, calculateInverseRate amount fromCurrency toCurrency = Return s.
Proof.
  intros Habsent.
  unfold calculateExchangeRate, calculateInverseRate.
  rewrite !(rate_or_absent _ _ Habsent).
  split; [|split; [|split]].
  - intros Hfin. destruct (JSNumberFacts.mul_zero_finite amount Hfin) as [s Hs].
    rewrite Hs. apply JSNumberFacts.toFixed_zero_2.
  - intros Hnot. rewrite (JSNumberFacts.mul_zero_not_finite amount Hnot).
    reflexivity.
  - reflexivity.
  - apply JSNumberFacts.toFixed_returns. lia.
Qed.

(** ETH to GBP is not in the table; the amount is 2. *)
Lemma absent_pair_falls_back_witness :
  calculateExchangeRate (parseFloat "2") "ETH" "GBP" = Return "0.00"
  /\ calculateInverseRate (parseFloat "2") "ETH" "GBP"
     = toFixed (div (parseFloat "2") (of_N 1)) 4.
Proof.
  destruct (absent_pair_falls_back (parseFloat "2") "ETH" "GBP")
    as (Hforward & _ & Hinverse & _).
  - vm_compute. reflexivity.
  - split; [apply Hforward; vm_compute; reflexivity | exact Hinverse].
Defined.

(** C6, as the claim has it, fails: for the absent pair ETH to GBP the
    forward conversion of the amount [NaN], which is what [parseFloat] makes
    of ["abc"], is ["NaN"] and not ["0.00"]. *)
Lemma absent_pair_NaN_amount :
  EXCHANGE_RATES !! rate_key "ETH" "GBP" = None
  /\ parseFloat "abc" = NaN
  /\ calculateExchangeRate NaN "ETH" "GBP" = Return "NaN".
Proof. repeat split; vm_compute; reflexivity. Qed.

End UtilsFacts.

(** ** The recipient form *)

Module RecipientFacts.

Import EventLoop EventLoopFacts RecipientDetails.

Lemma length_append (a b : string) :
  String.length (a ++ b) = (String.length a + String.length b)%nat.
Proof. induction a as [|c a IH]; simpl; [reflexivity | f_equal; exact IH]. Qed.

Lemma length_10_truthy (s : string) :
  String.length s = 10%nat -> JSString.truthy s = true.
Proof. destruct s; [discriminate | reflexivity]. Qed.

(** *** Editing the account number *)

Lemma edit_other_length (value : string) (w : world) :
  String.length value <> 10%nat ->
  handleAccountNumberChange value w =
  render (fun s => setAccountName ""
            (setErrors (without AccountNumber (errors s))
               (setAccountNumber value s))) w.
Proof.
  intros H. unfold handleAccountNumberChange.
  destruct (Nat.eqb_spec (String.length value) 10); [contradiction|reflexivity].
Qed.

Lemma edit_length_10 (value : string) (w : world) :
  String.length value = 10%nat ->
  handleAccountNumberChange value w =
  setTimeout VerificationDone 600
    (render (fun s => setAccountName "" (setIsVerifying true
               (setErrors (without AccountNumber (errors s))
                  (setAccountNumber value s)))) w).
Proof.
  intros H. unfold handleAccountNumberChange. rewrite H. reflexivity.
Qed.

(** C4, as the code has it: the trigger is the length of the text as typed,
    whatever its characters. An edit to a text of any length but 10 clears
    the account name at once and starts no verification: [isVerifying] stays
    as it was and nothing is scheduled. An edit to a text of length 10 clears
    the account name, sets [isVerifying] and, 600 ms later, the completion
    sets the canned account name and resets [isVerifying]. One more character
    typed after a verified text of length 10 clears the account name and
    starts no verification. *)
Theorem verification_trigger_boundary (w : world) (value : string) :
  (String.length value <> 10%nat ->
   accountName (view (handleAccountNumberChange value w)) = ""
   /\ isVerifying (view (handleAccountNumberChange value w)) = isVerifying (view w)
   /\ timers (handleAccountNumberChange value w) = timers w)
  /\
  (String.length value = 10%nat ->
   accountName (view (handleAccountNumberChange value w)) = ""
   /\ isVerifying (view (handleAccountNumberChange value w)) = true
   /\ accountName (view (elapse fire 600 (handleAccountNumberChange value w)))
      = "ODUTUGA GBEKE"
   /\ isVerifying (view (elapse fire 600 (handleAccountNumberChange value w)))
      = false)
  /\
  (forall c : ascii,
   String.length value = 10%nat ->
   accountNumber (view w) = value ->
   accountName (view w) = "ODUTUGA GBEKE" ->
   isVerifying (view w) = false ->
   accountName (view (handleAccountNumberChange (value ++ String c "") w)) = ""
   /\ isVerifying (view (handleAccountNumberChange (value ++ String c "") w))
      = false
   /\ timers (handleAccountNumberChange (value ++ String c "") w) = timers w).
Proof.
  split; [|split].
  - intros H. rewrite (edit_other_length _ _ H). repeat split.
  - intros H. rewrite (edit_length_10 _ _ H). repeat split.
    all: rewrite elapse_setTimeout; reflexivity.
  - intros c H _ _ Hv.
    assert (H11 : String.length (value ++ String c "") <> 10%nat).
    { rewrite length_append, H. cbn. lia. }
    rewrite (edit_other_length _ _ H11). cbn. rewrite Hv. repeat split.
Qed.

(** Nine digits, ten digits, and an eleventh digit after the ten have been
    verified. *)
Lemma verification_trigger_boundary_witness :
  isVerifying (view
    (handleAccountNumberChange "123456789" (mount Samples.nigeria))) = false
  /\
  accountName (view (elapse fire 600
    (handleAccountNumberChange "1234567890" (mount Samples.nigeria))))
  = "ODUTUGA GBEKE"
  /\
  accountName (view
    (handleAccountNumberChange ("1234567890" ++ "1")
       (elapse fire 600
          (handleAccountNumberChange "1234567890" (mount Samples.nigeria)))))
  = "".
Proof.
  split; [|split].
  - apply (proj1 (verification_trigger_boundary
                    (mount Samples.nigeria) "123456789")).
    cbn. lia.
  - apply (proj1 (proj2 (verification_trigger_boundary
                           (mount Samples.nigeria) "1234567890"))).
    reflexivity.
  - apply (proj2 (proj2 (verification_trigger_boundary
                           (elapse fire 600 (handleAccountNumberChange
                              "1234567890" (mount Samples.nigeria)))
                           "1234567890")) "1"%char); reflexivity.
Defined.

(** C4, as the claim has it, fails: ["12345-6789"] has nine digits, and the
    edit starts a verification, because the text has ten characters;
    ["123 456 7890"] has ten digits, and the edit starts none. *)
Lemma trigger_counts_characters :
  String.length (JSString.digitsOnly "12345-6789") = 9%nat
  /\ isVerifying (view
       (handleAccountNumberChange "12345-6789" (mount Samples.nigeria))) = true
  /\ String.length (JSString.digitsOnly "123 456 7890") = 10%nat
  /\ isVerifying (view
       (handleAccountNumberChange "123 456 7890" (mount Samples.nigeria)))
     = false.
Proof. repeat split. Qed.

(** *** The "Next" button *)

(** C7. On the bank form, [handleNext] with no bank selected and no account
    number stores both errors and stays on the bank form: nothing is
    scheduled and [isProcessing] is untouched. With the bank ["GTBank"] and
    an account number of ten characters it sets [isProcessing], and 500 ms
    later the page is on the e-mail form with no error and [isProcessing]
    reset. *)
Theorem bank_step_advance (w : world) :
  formType (view w) = form_bank ->
  (selectedBank (view w) = "" -> accountNumber (view w) = "" ->
   error_of Bank (errors (view (handleNext w))) = Some "Please select a bank"
   /\ error_of AccountNumber (errors (view (handleNext w)))
      = Some "Account number is required"
   /\ formType (view (handleNext w)) = form_bank
   /\ isProcessing (view (handleNext w)) = isProcessing (view w)
   /\ timers (handleNext w) = timers w)
  /\
  (selectedBank (view w) = "GTBank" ->
   String.length (accountNumber (view w)) = 10%nat ->
   isProcessing (view (handleNext w)) = true
   /\ formType (view (handleNext w)) = form_bank
   /\ formType (view (elapse fire 500 (handleNext w))) = form_email
   /\ errors (view (elapse fire 500 (handleNext w))) = no_errors
   /\ isProcessing (view (elapse fire 500 (handleNext w))) = false).
Proof.
  intros Hform. split.
  - intros Hbank Hnumber. unfold handleNext, validateBankForm, bankErrors.
    rewrite Hform, Hbank, Hnumber. cbn. rewrite Hform. repeat split.
  - intros Hbank Hlen. unfold handleNext, validateBankForm, bankErrors.
    rewrite Hform, Hbank, (length_10_truthy _ Hlen), Hlen.
    cbn [JSString.truthy negb Nat.ltb Nat.leb no_keys].
    repeat split; try (rewrite elapse_setTimeout; reflexivity).
    cbn. exact Hform.
Qed.

(** The freshly mounted page, and the page once GTBank and a number of ten
    digits are entered and verified. *)
Lemma bank_step_advance_witness :
  error_of Bank (errors (view (handleNext (mount Samples.nigeria))))
  = Some "Please select a bank"
  /\
  formType (view (elapse fire 500 (handleNext
    (run [BankChosen "GTBank"; AccountNumberEdited "1234567890"; Wait 600]
       (mount Samples.nigeria)))))
  = form_email.
Proof.
  split.
  - apply (proj1 (bank_step_advance (mount Samples.nigeria) eq_refl));
      reflexivity.
  - apply (proj2 (bank_step_advance
                    (run [BankChosen "GTBank"; AccountNumberEdited "1234567890";
                          Wait 600] (mount Samples.nigeria)) eq_refl));
      reflexivity.
Defined.

(** C10. In a state that the page can reach, the "Next" button is disabled
    exactly when [isProcessing] is set, or [isVerifying] is set while the bank
    form is shown; and a click on the disabled button changes nothing. *)
Theorem next_disabled_policy (countries0 : Country) (w : world) :
  reachable countries0 w ->
  (nextDisabled (view w) = true <->
   isProcessing (view w) = true
   \/ (formType (view w) = form_bank /\ isVerifying (view w) = true))
  /\ (nextDisabled (view w) = true -> step NextClicked w = w).
Proof.
  intros _. unfold nextDisabled. split.
  - destruct (isProcessing (view w)), (formType (view w)),
      (isVerifying (view w)); cbn; intuition discriminate.
  - intros H. unfold step, nextDisabled.
    destruct (formType (view w)); rewrite H; reflexivity.
Qed.

(** While the ten digits just typed are being verified the button is
    disabled. *)
Lemma next_disabled_policy_witness :
  nextDisabled (view (step (AccountNumberEdited "1234567890")
                        (mount Samples.nigeria))) = true
  /\ step NextClicked (step (AccountNumberEdited "1234567890")
                         (mount Samples.nigeria))
     = step (AccountNumberEdited "1234567890") (mount Samples.nigeria).
Proof.
  destruct (next_disabled_policy Samples.nigeria
              (step (AccountNumberEdited "1234567890") (mount Samples.nigeria)))
    as [Hiff Hclick].
  - apply reachable_step, reachable_mount.
  - split; [reflexivity | apply Hclick; reflexivity].
Defined.

(** *** Validation of the contact form *)

(** C5, at an input where the code departs from it. A phone number of 16
    digits, with a well-formed e-mail address, passes [validateEmailForm]:
    no [phoneNumber] error is stored, "Next" goes on and the router is sent
    to the payment page. [validateContact] of the validation hooks passes it
    too. [isValidPhone], which neither calls, rejects it, and the declared
    [VALIDATION.phone.maxLength] is 15. *)
Theorem long_phone_number_passes :
  String.length (JSString.digitsOnly "1234567890123456") = 16%nat
  /\ error_of PhoneNumber (errors (view
       (run [BankChosen "GTBank"; AccountNumberEdited "1234567890"; Wait 600;
             NextClicked; Wait 500;
             EmailEdited "a@b.co"; PhoneNumberEdited "1234567890123456";
             NextClicked]
          (mount Samples.nigeria)))) = None
  /\ routed (view
       (run [BankChosen "GTBank"; AccountNumberEdited "1234567890"; Wait 600;
             NextClicked; Wait 500;
             EmailEdited "a@b.co"; PhoneNumberEdited "1234567890123456";
             NextClicked; Wait 800]
          (mount Samples.nigeria))) = [router_push "/payment"]
  /\ Hooks.validateContact "a@b.co" "1234567890123456"
     = (Hooks.ContactErrors None None, true)
  /\ Utils.isValidPhone "1234567890123456" = false
  /\ Tokens.VALIDATION.phone_maxLength = 15%nat.
Proof. repeat split; vm_compute; reflexivity. Qed.

(** *** The account name *)

(** C8, at the state where the code departs from it. On the freshly mounted
    page no account number has been typed, no verification is running and
    none is scheduled, and the account name already holds the canned name. *)
Theorem fresh_page_has_account_name (countries0 : Country) :
  accountName (view (mount countries0)) = "ODUTUGA GBEKE"
  /\ accountNumber (view (mount countries0)) = ""
  /\ isVerifying (view (mount countries0)) = false
  /\ timers (mount countries0) = [].
Proof. repeat split. Qed.

End RecipientFacts.

(** ** Errors are set on submit and cleared field by field *)

Module ErrorFacts.

Import EventLoop RecipientDetails.

Lemma recipient_without_same (f : field) (e : errors_t) :
  error_of f (without f e) = None.
Proof. destruct f; reflexivity. Qed.

Lemma recipient_without_other (f g : field) (e : errors_t) :
  g <> f -> error_of g (without f e) = error_of g e.
Proof. destruct f, g; intros Hne; try reflexivity; contradiction. Qed.

Lemma home_without_same (f : Home.field) (e : Home.errors_t) :
  Home.error_of f (Home.without f e) = None.
Proof. destruct f; reflexivity. Qed.

Lemma home_without_other (f g : Home.field) (e : Home.errors_t) :
  g <> f -> Home.error_of g (Home.without f e) = Home.error_of g e.
Proof. destruct f, g; intros Hne; try reflexivity; contradiction. Qed.

(** The errors after the [onChange] of a field of the recipient form. *)
Lemma recipient_errors_onFieldChange (f : field) (value : string) (w : world) :
  errors (view (onFieldChange f value w)) = without f (errors (view w)).
Proof.
  destruct f; try reflexivity.
  cbn [onFieldChange]. unfold handleAccountNumberChange.
  destruct (String.length value =? 10)%nat; reflexivity.
Qed.

Lemma home_errors_onFieldChange (f : Home.field) (val : string) (s : Home.state) :
  Home.errors (Home.onFieldChange f val s) = Home.without f (Home.errors s).
Proof. destruct f; reflexivity. Qed.

(** No timer callback stores an error. *)
Lemma recipient_fire_no_new_error (t : task) (s : state) (g : field) (m : string) :
  error_of g (errors (fire t s)) = Some m ->
  error_of g (errors s) = Some m.
Proof. destruct t, g; cbn; intros E; (exact E || discriminate). Qed.

Lemma home_fire_no_new_error
    (t : Home.task) (s : Home.state) (g : Home.field) (m : string) :
  Home.error_of g (Home.errors (Home.fire t s)) = Some m ->
  Home.error_of g (Home.errors s) = Some m.
Proof.
  destruct t as [v|v|]; cbn [Home.fire].
  - destruct (Home.payToReceive v); intros E; exact E.
  - destruct (Home.receiveToPay v); intros E; exact E.
  - intros E; exact E.
Qed.

Section Waiting.
Context {page task field : Type}.
Variable fire : task -> page -> page.
Variable error_at : field -> page -> option string.
Hypothesis fire_no_new_error :
  forall t p g m, error_at g (fire t p) = Some m -> error_at g p = Some m.

(** Letting time pass stores no error either. *)
Lemma elapse_no_new_error
    (ms : N) (w : EventLoop.world page task) (g : field) (m : string) :
  error_at g (view (elapse fire ms w)) = Some m -> error_at g (view w) = Some m.
Proof.
  unfold elapse. destruct w as [p n q]. cbn [view now timers].
  generalize (n + ms)%N as target. intros target. revert p.
  induction q as [|h r IH]; intros p; cbn [run_due].
  - intros E; exact E.
  - destruct (due h <=? target)%N.
    + intros E. apply fire_no_new_error with (t := callback h).
      revert E. apply IH.
    + intros E; exact E.
Qed.

End Waiting.

(** C9. On the recipient form and on the conversion page alike, the
    [onChange] of a field removes the error of that field and leaves the error
    of every other field as it was; and an event other than a click on "Next"
    (on the conversion page: on "Convert now") stores no error: an error that
    a field has afterwards it had before. *)
Theorem edits_clear_only_their_own_error :
  (forall (w : world) (f g : field) (value : string),
     error_of f (errors (view (onFieldChange f value w))) = None
     /\ (g <> f ->
         error_of g (errors (view (onFieldChange f value w)))
         = error_of g (errors (view w))))
  /\
  (forall (w : world) (e : event) (g : field) (m : string),
     e <> NextClicked ->
     error_of g (errors (view (step e w))) = Some m ->
     error_of g (errors (view w)) = Some m)
  /\
  (forall (s : Home.state) (f g : Home.field) (val : string),
     Home.error_of f (Home.errors (Home.onFieldChange f val s)) = None
     /\ (g <> f ->
         Home.error_of g (Home.errors (Home.onFieldChange f val s))
         = Home.error_of g (Home.errors s)))
  /\
  (forall (w : Home.world) (e : Home.event) (g : Home.field) (m : string),
     e <> Home.ConvertClicked ->
     Home.error_of g (Home.errors (view (Home.step e w))) = Some m ->
     Home.error_of g (Home.errors (view w)) = Some m).
Proof.
  split; [|split; [|split]].
  - intros w f g value. rewrite recipient_errors_onFieldChange. split.
    + apply recipient_without_same.
    + apply recipient_without_other.
  - intros w e g m Hne.
    destruct e as [val|value|value|c|value| | |ms]; unfold step;
      destruct (formType (view w)) eqn:Hform; try (intros E; exact E);
      try contradiction.
    + change (render (onBankChange val) w) with (onFieldChange Bank val w).
      rewrite recipient_errors_onFieldChange.
      destruct g; cbn; intros E; (exact E || discriminate).
    + change (handleAccountNumberChange value w)
        with (onFieldChange AccountNumber value w).
      rewrite recipient_errors_onFieldChange.
      destruct g; cbn; intros E; (exact E || discriminate).
    + change (render (onEmailChange value) w)
        with (onFieldChange Email value w).
      rewrite recipient_errors_onFieldChange.
      destruct g; cbn; intros E; (exact E || discriminate).
    + change (render (onChangeNumber value) w)
        with (onFieldChange PhoneNumber value w).
      rewrite recipient_errors_onFieldChange.
      destruct g; cbn; intros E; (exact E || discriminate).
    + cbn. unfold handleBack. rewrite Hform. intros E; exact E.
    + cbn. unfold handleBack. rewrite Hform. intros E; exact E.
    + apply (elapse_no_new_error fire (fun g s => error_of g (errors s))).
      intros t p g' m'. apply recipient_fire_no_new_error.
    + apply (elapse_no_new_error fire (fun g s => error_of g (errors s))).
      intros t p g' m'. apply recipient_fire_no_new_error.
  - intros s f g val. rewrite home_errors_onFieldChange. split.
    + apply home_without_same.
    + apply home_without_other.
  - intros w e g m Hne.
    destruct e as [tab|v|v|c|c|val|val| |ms]; cbn [Home.step];
      try (intros E; exact E); try contradiction.
    + cbn. destruct g; cbn; intros E; (exact E || discriminate).
    + cbn. destruct g; cbn; intros E; (exact E || discriminate).
    + apply (elapse_no_new_error Home.fire (fun g s => Home.error_of g (Home.errors s))).
      intros t p g' m'. apply home_fire_no_new_error.
Qed.

(** After a click on "Next" with nothing filled in, both fields of the bank
    form have an error; typing an account number removes its error and keeps
    the error of the bank. *)
Lemma edits_clear_only_their_own_error_witness :
  error_of AccountNumber (errors (view
    (onFieldChange AccountNumber "12345"
       (step NextClicked (mount Samples.nigeria))))) = None
  /\
  error_of Bank (errors (view
    (onFieldChange AccountNumber "12345"
       (step NextClicked (mount Samples.nigeria)))))
  = Some "Please select a bank".
Proof.
  destruct (proj1 edits_clear_only_their_own_error
              (step NextClicked (mount Samples.nigeria))
              AccountNumber Bank "12345") as [Hown Hother].
  split; [exact Hown|].
  rewrite Hother; [reflexivity | discriminate].
Defined.

End ErrorFacts.

(** ** Further properties of the conversion page *)

Module ConversionPageFacts.

Import JSNumber EventLoop EventLoopFacts Home.

(** An edit of the pay amount stores the text as typed and sets
    [isCalculating] at once; 300 ms later, whatever else is pending, the
    receive amount is [(parseFloat(newValue || "0") * 3500).toFixed(2)] and
    [isCalculating] is reset. *)
Theorem pay_amount_edit_completion (w : world) (newValue : string) :
  payValue (view (step (PayValueEdited newValue) w)) = newValue
  /\ isCalculating (view (step (PayValueEdited newValue) w)) = true
  /\ receiveValue (view (step (PayValueEdited newValue) w)) = receiveValue (view w)
  /\ Return (receiveValue (view (run [PayValueEdited newValue; Wait 300] w)))
     = toFixed (mul (parseFloat (JSString.or_else newValue "0")) (of_N 3500)) 2
  /\ isCalculating (view (run [PayValueEdited newValue; Wait 300] w)) = false.
Proof.
  repeat split; try reflexivity; apply HomeFacts.pay_edit_settles.
Qed.

(** The other direction: the pay amount becomes
    [(parseFloat(newValue || "0") / 3500).toFixed(4)]. *)
Theorem receive_amount_edit_completion (w : world) (newValue : string) :
  receiveValue (view (step (ReceiveValueEdited newValue) w)) = newValue
  /\ isCalculating (view (step (ReceiveValueEdited newValue) w)) = true
  /\ payValue (view (step (ReceiveValueEdited newValue) w)) = payValue (view w)
  /\ Return (payValue (view (run [ReceiveValueEdited newValue; Wait 300] w)))
     = toFixed (div (parseFloat (JSString.or_else newValue "0")) (of_N 3500)) 4
  /\ isCalculating (view (run [ReceiveValueEdited newValue; Wait 300] w)) = false.
Proof.
  repeat split; try reflexivity; apply HomeFacts.receive_edit_settles.
Qed.


(** "Convert now": with a wallet missing, [handleConvert] stores the error of
    the missing field and goes no further; with both wallets chosen it sets
    [isConverting], clears the errors and, when nothing else is pending, the
    router has been sent to the recipient page, once, 800 ms later. *)
Theorem convert_gate (w : world) :
  (payFrom (view w) = "" ->
   error_of PayFrom (errors (view (handleConvert w)))
   = Some "Please select a wallet to pay from"
   /\ isConverting (view (handleConvert w)) = isConverting (view w)
   /\ timers (handleConvert w) = timers w)
  /\
  (payTo (view w) = "" ->
   error_of PayTo (errors (view (handleConvert w)))
   = Some "Please select a wallet to pay to"
   /\ isConverting (view (handleConvert w)) = isConverting (view w)
   /\ timers (handleConvert w) = timers w)
  /\
  (JSString.truthy (payFrom (view w)) = true ->
   JSString.truthy (payTo (view w)) = true ->
   isConverting (view (handleConvert w)) = true
   /\ errors (view (handleConvert w)) = Errors None None
   /\ (timers w = [] ->
       pushed (view (elapse fire 800 (handleConvert w)))
       = "/recipient-details" :: pushed (view w))).
Proof.
  unfold handleConvert, validateForm, newErrors. split; [|split].
  - intros H. rewrite H. cbn. repeat split.
  - intros H. rewrite H. cbn.
    destruct (JSString.truthy (payFrom (view w))); cbn; repeat split.
  - intros Hfrom Hto. rewrite Hfrom, Hto. cbn [negb no_keys].
    repeat split. intros Hq. rewrite elapse_setTimeout. cbn [view fire].
    unfold elapse, render. cbn [view now timers]. rewrite Hq. reflexivity.
Qed.

(** The scenario of the page from mount to navigation: the router gets the
    one route. *)
Lemma convert_gate_witness :
  pushed (view (elapse fire 800 (handleConvert
    (run [PayValueEdited "2"; Wait 300;
          PayFromChosen "Metamask"; PayToChosen "Rainbow"] mount))))
  = ["/recipient-details"]
  /\
  error_of PayFrom (errors (view (handleConvert mount)))
  = Some "Please select a wallet to pay from".
Proof.
  split.
  - apply (proj2 (proj2 (convert_gate
      (run [PayValueEdited "2"; Wait 300;
            PayFromChosen "Metamask"; PayToChosen "Rainbow"] mount))));
      reflexivity.
  - apply (proj1 (convert_gate mount)). reflexivity.
Defined.

End ConversionPageFacts.

(** ** Further properties of the recipient form *)

Module RecipientFormFacts.

Import EventLoop EventLoopFacts RecipientDetails.

(** The bank form accepts an account number exactly when it has ten
    characters or more: the message says "at least 10 digits" and longer
    numbers pass. *)
Theorem bank_validation_accepts_10_or_more (s : state) :
  error_of AccountNumber (bankErrors s) = None
  <-> (10 <= String.length (accountNumber s))%nat.
Proof.
  unfold bankErrors. cbn [error_of err_accountNumber].
  destruct (accountNumber s) as [|c r] eqn:E; cbn [JSString.truthy negb].
  - cbn. split; [discriminate | lia].
  - destruct (Nat.ltb_spec (String.length (String c r)) 10) as [Hlt|Hge].
    + split; [discriminate | lia].
    + split; [intros _; exact Hge | reflexivity].
Qed.

End RecipientFormFacts.

(** ** More on the timer queue *)

Module QueueFacts.

Import EventLoop Queue.

Section Queue.
Context {page task : Type}.
Variable fire : task -> page -> page.

Lemma In_enqueue (t x : timer task) (q : list (timer task)) :
  In x (enqueue t q) <-> x = t \/ In x q.
Proof.
  induction q as [|h r IH]; cbn [enqueue].
  - cbn. intuition.
  - destruct (due t <? due h)%N; cbn [In]; [intuition|].
    rewrite IH. intuition.
Qed.

Lemma sorted_enqueue (t : timer task) (q : list (timer task)) :
  sorted q -> sorted (enqueue t q).
Proof.
  induction q as [|h r IH]; cbn [enqueue sorted].
  - intros _. split; [intros x []|exact I].
  - intros [Hh Hr]. destruct (N.ltb_spec (due t) (due h)) as [Hlt|Hge].
    + cbn [sorted]. split; [|split; assumption].
      intros x [<-|Hx]; [lia|]. specialize (Hh x Hx). lia.
    + cbn [sorted]. split; [|apply IH, Hr].
      intros x Hx. apply In_enqueue in Hx. destruct Hx as [->|Hx]; [lia|].
      apply Hh, Hx.
Qed.

Lemma pending_enqueue (sel : task -> bool) (t : timer task) (q : list (timer task)) :
  pending sel (enqueue t q)
  = ((if sel (callback t) then 1 else 0) + pending sel q)%nat.
Proof.
  unfold pending. induction q as [|h r IH]; simpl.
  - destruct (sel (callback t)); reflexivity.
  - destruct (due t <? due h)%N; simpl.
    + destruct (sel (callback t)); reflexivity.
    + destruct (sel (callback h)); simpl; rewrite IH; lia.
Qed.

(** What holds of the cells and the queue, and goes on holding when the
    callback at the front runs, holds after any wait. *)
Lemma run_due_invariant (I : page -> list (timer task) -> Prop) :
  (forall h r p, I p (h :: r) -> I (fire (callback h) p) r) ->
  forall target q p,
    I p q -> I (fst (run_due fire target q p)) (snd (run_due fire target q p)).
Proof.
  intros Hstep target q. induction q as [|h r IH]; intros p Hp; cbn [run_due].
  - exact Hp.
  - destruct (due h <=? target)%N; [apply IH, Hstep, Hp | exact Hp].
Qed.

(** After a wait, what is still at the front of the queue expires later. *)
Lemma run_due_rest_late (target : N) (q : list (timer task)) (p : page) :
  forall h r, snd (run_due fire target q p) = h :: r -> (target < due h)%N.
Proof.
  revert p. induction q as [|h0 r0 IH]; intros p h r; cbn [run_due].
  - discriminate.
  - destruct (N.leb_spec (due h0) target) as [Hle|Hgt]; [apply IH|].
    cbn. intros E. injection E as -> _. exact Hgt.
Qed.

Lemma view_elapse (ms : N) (w : world page task) :
  view (elapse fire ms w) = fst (run_due fire (now w + ms) (timers w) (view w))
  /\ timers (elapse fire ms w)
     = snd (run_due fire (now w + ms) (timers w) (view w))
  /\ now (elapse fire ms w) = (now w + ms)%N.
Proof.
  unfold elapse. destruct (run_due fire (now w + ms) (timers w) (view w)).
  repeat split.
Qed.

(** *** A flag that pending callbacks reset *)

Section Flag.
Variable flag : page -> bool.
Variable clears : task -> bool.
Variable delay : N.
Hypothesis fire_clears : forall t p, clears t = true -> flag (fire t p) = false.
Hypothesis fire_keeps : forall t p, clears t = false -> flag (fire t p) = flag p.

Lemma flag_backed_elapse (ms : N) (w : world page task) :
  flag_backed flag clears delay w ->
  flag_backed flag clears delay (elapse fire ms w).
Proof.
  intros (Hs & Hb & Hf).
  destruct (view_elapse ms w) as (Ev & Et & En).
  unfold flag_backed. rewrite Ev, Et, En.
  pose (I := fun (p : page) (q : list (timer task)) =>
    sorted q
    /\ (forall t, In t q -> clears (callback t) = true ->
        (due t <= now w + delay)%N)
    /\ (flag p = true -> exists t, In t q /\ clears (callback t) = true)).
  assert (HI : I (fst (run_due fire (now w + ms) (timers w) (view w)))
                 (snd (run_due fire (now w + ms) (timers w) (view w)))).
  { apply run_due_invariant; [|exact (conj Hs (conj Hb Hf))].
    intros h r p (Hs' & Hb' & Hf'). cbn [sorted] in Hs'.
    split; [apply Hs'|]. split.
    - intros t Ht. apply Hb'. right. exact Ht.
    - destruct (clears (callback h)) eqn:Hc.
      + rewrite (fire_clears _ _ Hc). discriminate.
      + rewrite (fire_keeps _ _ Hc). intros Hp.
        destruct (Hf' Hp) as (t & [<-|Ht] & Hct); [congruence|].
        exists t. split; assumption. }
  destruct HI as (Hs' & Hb' & Hf').
  split; [exact Hs'|]. split; [|exact Hf'].
  intros t Ht Hc. specialize (Hb' t Ht Hc). lia.
Qed.

(** Once [delay] has passed with no event the flag is down. *)
Lemma flag_down_after_delay (ms : N) (w : world page task) :
  flag_backed flag clears delay w -> (delay <= ms)%N ->
  flag (view (elapse fire ms w)) = false.
Proof.
  intros Hw Hms.
  pose proof (flag_backed_elapse ms w Hw) as (Hs' & _ & Hf').
  destruct Hw as (_ & Hb & _).
  destruct (view_elapse ms w) as (Ev & Et & En).
  destruct (flag (view (elapse fire ms w))) eqn:Hflag; [|reflexivity].
  destruct (Hf' eq_refl) as (t & Ht & Hc). exfalso.
  assert (Hin : In t (timers w)).
  { rewrite Et in Ht. clear -Ht. revert Ht.
    generalize (view w). induction (timers w) as [|h r IH]; intros p;
      cbn [run_due]; [intros []|].
    destruct (due h <=? now w + ms)%N; [|intros H; exact H].
    intros H. right. exact (IH _ H). }
  pose proof (Hb t Hin Hc) as Hdue.
  rewrite Et in Ht, Hs'.
  destruct (snd (run_due fire (now w + ms) (timers w) (view w)))
    as [|h r] eqn:Eq; [destruct Ht|].
  pose proof (run_due_rest_late _ _ _ _ _ Eq) as Hlate.
  cbn [sorted] in Hs'. destruct Ht as [<-|Ht]; [lia|].
  pose proof (proj1 Hs' t Ht). lia.
Qed.

(** Changes of the cells that do not raise the flag keep the shape. *)
Lemma flag_backed_render (f : page -> page) (w : world page task) :
  flag_backed flag clears delay w ->
  (flag (f (view w)) = true -> flag (view w) = true) ->
  flag_backed flag clears delay (render f w).
Proof.
  intros (Hs & Hb & Hf) Hkeep. unfold flag_backed, render. cbn [view now timers].
  split; [exact Hs|]. split; [exact Hb|]. intros H. apply Hf, Hkeep, H.
Qed.

(** So does a new timer for a callback that does not reset the flag. *)
Lemma flag_backed_setTimeout_other (t : task) (d : N) (w : world page task) :
  flag_backed flag clears delay w -> clears t = false ->
  flag_backed flag clears delay (setTimeout t d w).
Proof.
  intros (Hs & Hb & Hf) Ht. unfold flag_backed, setTimeout.
  cbn [view now timers]. split; [apply sorted_enqueue, Hs|]. split.
  - intros x Hx Hc. apply In_enqueue in Hx. destruct Hx as [->|Hx].
    + cbn in Hc. congruence.
    + apply Hb; assumption.
  - intros H. destruct (Hf H) as (x & Hx & Hc). exists x. split; [|exact Hc].
    apply In_enqueue. right. exact Hx.
Qed.

(** And a new timer, of the delay, for a callback that resets it, whatever
    the cells become. *)
Lemma flag_backed_setTimeout_clear
    (t : task) (f : page -> page) (w : world page task) :
  flag_backed flag clears delay w -> clears t = true ->
  flag_backed flag clears delay (setTimeout t delay (render f w)).
Proof.
  intros (Hs & Hb & _) Ht. unfold flag_backed, setTimeout, render.
  cbn [view now timers]. split; [apply sorted_enqueue, Hs|]. split.
  - intros x Hx Hc. apply In_enqueue in Hx. destruct Hx as [->|Hx].
    + cbn. lia.
    + apply Hb; assumption.
  - intros _. exists (Timer (now w + delay)%N t). split; [|exact Ht].
    apply In_enqueue. left. reflexivity.
Qed.

End Flag.

End Queue.

End QueueFacts.

(** ** What every reachable state of the recipient form satisfies *)

Module RecipientInvariants.

Import EventLoop Queue QueueFacts Kinds RecipientDetails.

Lemma fire_verification_clears (t : task) (p : state) :
  is_verification t = true -> isVerifying (fire t p) = false.
Proof. destruct t; cbn; intros H; (reflexivity || discriminate). Qed.

Lemma fire_other_keeps (t : task) (p : state) :
  is_verification t = false -> isVerifying (fire t p) = isVerifying p.
Proof. destruct t; cbn; intros H; (reflexivity || discriminate). Qed.

(** Splits the state after an event into the handlers' cases. *)
Ltac handler_cases w :=
  unfold step, handleAccountNumberChange, handleNext, validateBankForm,
    validateEmailForm;
  repeat match goal with
    | |- context [formType (view w)] => destruct (formType (view w)) eqn:?
    | |- context [nextDisabled (view w)] => destruct (nextDisabled (view w)) eqn:?
    | |- context [(String.length ?v =? 10)%nat] =>
        destruct (String.length v =? 10)%nat eqn:?
    | |- context [no_keys ?e] => destruct (no_keys e) eqn:?
    end.

Lemma reachable_flag_backed (countries0 : Country) (w : world) :
  reachable countries0 w -> flag_backed isVerifying is_verification 600 w.
Proof.
  induction 1 as [|e w Hr IH].
  - repeat split; cbn; [intros t [] | discriminate].
  - destruct e; handler_cases w; try exact IH;
      repeat first
        [ exact IH
        | apply flag_backed_elapse;
            [exact fire_verification_clears | exact fire_other_keeps |]
        | apply flag_backed_setTimeout_clear; [|reflexivity]
        | apply flag_backed_setTimeout_other; [|reflexivity]
        | apply flag_backed_render;
            [| cbn; unfold handleBack; cbn;
               try match goal with
                 | |- context [formType ?s] => destruct (formType s)
                 end; cbn; intros E; exact E ] ].
Qed.

(** A verification never hangs: in a state that the page can reach,
    [isVerifying] is reset once 600 ms have passed without an event, so from
    then on "Next" is disabled only while [isProcessing] is set. *)
Theorem verification_always_completes
    (countries0 : Country) (w : world) (ms : N) :
  reachable countries0 w -> (600 <= ms)%N ->
  isVerifying (view (elapse fire ms w)) = false
  /\ nextDisabled (view (elapse fire ms w))
     = isProcessing (view (elapse fire ms w)).
Proof.
  intros Hr Hms.
  assert (Hv : isVerifying (view (elapse fire ms w)) = false).
  { apply (flag_down_after_delay fire isVerifying is_verification 600);
      [exact fire_verification_clears | exact fire_other_keeps
      | exact (reachable_flag_backed countries0 w Hr) | exact Hms]. }
  split; [exact Hv|]. unfold nextDisabled. rewrite Hv.
  destruct (isProcessing _), (is_bank _); reflexivity.
Qed.

(** Ten digits are typed, an eleventh 100 ms later, then nothing for
    600 ms. *)
Lemma verification_always_completes_witness :
  isVerifying (view (elapse fire 600
    (run [AccountNumberEdited "1234567890"; Wait 100;
          AccountNumberEdited "12345678901"] (mount Samples.nigeria))))
  = false.
Proof.
  apply (verification_always_completes Samples.nigeria
           (run [AccountNumberEdited "1234567890"; Wait 100;
                 AccountNumberEdited "12345678901"] (mount Samples.nigeria))
           600).
  - repeat apply reachable_step. apply reachable_mount.
  - lia.
Defined.

(** *** One submission at most *)

Lemma disabled_false_not_processing (p : state) :
  nextDisabled p = false -> isProcessing p = false.
Proof. unfold nextDisabled. destruct (isProcessing p); [discriminate|reflexivity]. Qed.

(** The step transitions and submissions in flight, and the submissions
    made, are one while [isProcessing] is set and none otherwise. *)
Lemma reachable_in_flight (countries0 : Country) (w : world) :
  reachable countries0 w ->
  (pending is_show_email (timers w) + pending is_push_payment (timers w)
   + pushes (routed (view w)) = Nat.b2n (isProcessing (view w)))%nat
  /\ (forall n, In n (routed (view w)) ->
      n = router_back \/ n = router_push "/payment").
Proof.
  induction 1 as [|e w Hr [IHn IHr]].
  - split; [reflexivity | intros n []].
  - destruct e; handler_cases w;
      try (split; [exact IHn | exact IHr]);
      unfold setTimeout, render; cbn [view now timers];
      rewrite ?pending_enqueue; cbn [is_show_email is_push_payment];
      cbn [routed isProcessing setIsProcessing setErrors setAccountName
           setIsVerifying setAccountNumber setSelectedBank setEmail
           setPhoneNumber setCountry onBankChange onEmailChange onChangeNumber].
    all: try (split; [exact IHn | exact IHr]).
    + (* Next on the bank form *)
      rewrite (disabled_false_not_processing _ ltac:(eassumption)) in IHn.
      cbn in IHn |- *. split; [lia | exact IHr].
    + (* Next on the e-mail form *)
      rewrite (disabled_false_not_processing _ ltac:(eassumption)) in IHn.
      cbn in IHn |- *. split; [lia | exact IHr].
    + (* the back arrow *)
      unfold handleBack. destruct (formType (view w)); cbn.
      * split; [exact IHn|].
        intros n [<-|Hn]; [left; reflexivity | apply IHr, Hn].
      * split; [exact IHn | exact IHr].
    + (* waiting *)
      destruct (view_elapse fire ms w) as (Ev & Et & _). rewrite Ev, Et.
      apply (run_due_invariant fire
        (fun p q =>
           (pending is_show_email q + pending is_push_payment q
            + pushes (routed p) = Nat.b2n (isProcessing p))%nat
           /\ (forall n, In n (routed p) ->
               n = router_back \/ n = router_push "/payment")));
        [|split; assumption].
      intros [d cb] r p [Hn Hin]. unfold pending, pushes in *.
      destruct cb; cbn in *.
      * split; assumption.
      * split; [|exact Hin]. destruct (isProcessing p); cbn in *; lia.
      * split; [lia|]. intros n [<-|Hn']; [right; reflexivity | apply Hin, Hn'].
Qed.

(** The form is submitted once at most: in a state that the page can reach
    the router has been pushed at most once, to ["/payment"], however often
    and whenever "Next" and the back arrow are clicked; and while a step
    transition or a submission is in flight [isProcessing] is set. *)
Theorem submitted_at_most_once (countries0 : Country) (w : world) :
  reachable countries0 w ->
  (pushes (routed (view w)) <= 1)%nat
  /\ (forall route, In (router_push route) (routed (view w)) ->
      route = "/payment")
  /\ ((0 < pending is_show_email (timers w)
          + pending is_push_payment (timers w))%nat ->
      isProcessing (view w) = true).
Proof.
  intros Hr. destruct (reachable_in_flight countries0 w Hr) as [Hn Hin].
  split; [|split].
  - destruct (isProcessing (view w)); cbn in Hn; lia.
  - intros route Hroute. destruct (Hin _ Hroute) as [E|E];
      [discriminate | injection E as ->; reflexivity].
  - intros Hpos. destruct (isProcessing (view w)); [reflexivity|].
    cbn in Hn. lia.
Qed.

(** The whole form is filled in and submitted; then the back arrow and
    "Next" are clicked again. *)
Lemma submitted_at_most_once_witness :
  (pushes (routed (view
    (run [BankChosen "GTBank"; AccountNumberEdited "1234567890"; Wait 600;
          NextClicked; Wait 500;
          EmailEdited "a@b.co"; PhoneNumberEdited "08012345678";
          NextClicked; BackClicked; NextClicked; Wait 800; NextClicked;
          Wait 800] (mount Samples.nigeria)))) <= 1)%nat.
Proof.
  apply (submitted_at_most_once Samples.nigeria).
  repeat apply reachable_step. apply reachable_mount.
Defined.

(** *** Where the account name comes from *)

(** The account name is never anything but empty or the canned name: in a
    state that the page can reach, whatever bank was chosen and whatever
    number was typed. *)
Theorem account_name_is_canned (countries0 : Country) (w : world) :
  reachable countries0 w ->
  accountName (view w) = "" \/ accountName (view w) = "ODUTUGA GBEKE".
Proof.
  induction 1 as [|e w Hr IH].
  - right. reflexivity.
  - destruct e; handler_cases w; try exact IH;
      try (left; reflexivity); cbn; try exact IH.
    + unfold handleBack. destruct (formType (view w)); exact IH.
    + destruct (view_elapse fire ms w) as (Ev & _). rewrite Ev.
      apply (run_due_invariant fire
        (fun p _ => accountName p = "" \/ accountName p = "ODUTUGA GBEKE"));
        [|exact IH].
      intros [d cb] r p Hp. destruct cb; cbn; [right; reflexivity | exact Hp..].
Qed.

(** Another bank and another number, verified. *)
Lemma account_name_is_canned_witness :
  accountName (view
    (run [BankChosen "UBA"; AccountNumberEdited "0000000000"; Wait 600]
       (mount Samples.nigeria))) = ""
  \/ accountName (view
    (run [BankChosen "UBA"; AccountNumberEdited "0000000000"; Wait 600]
       (mount Samples.nigeria))) = "ODUTUGA GBEKE".
Proof.
  apply (account_name_is_canned Samples.nigeria).
  repeat apply reachable_step. apply reachable_mount.
Defined.

End RecipientInvariants.

(** ** What every reachable state of the conversion page satisfies *)

Module HomeInvariants.

Import EventLoop Queue QueueFacts Kinds Home Journey.

Lemma fire_recalculation_clears (t : task) (p : state) :
  is_recalculation t = true -> isCalculating (fire t p) = false.
Proof.
  destruct t as [v|v|]; cbn [is_recalculation]; intros H; try discriminate.
  - apply HomeFacts.fire_RecalculateReceive.
  - apply HomeFacts.fire_RecalculatePay.
Qed.

Lemma fire_push_keeps (t : task) (p : state) :
  is_recalculation t = false -> isCalculating (fire t p) = isCalculating p.
Proof. destruct t; cbn; intros H; (reflexivity || discriminate). Qed.

(** Splits the state after an event into the handlers' cases. *)
Ltac convert_cases w :=
  unfold step, handlePayValueChange, handleReceiveValueChange, handleConvert,
    validateForm;
  repeat match goal with
    | |- context [isConverting (view w)] => destruct (isConverting (view w)) eqn:?
    | |- context [no_keys ?e] => destruct (no_keys e) eqn:?
    end.

Lemma reachable_calculating_backed (w : world) :
  reachable w -> flag_backed isCalculating is_recalculation 300 w.
Proof.
  induction 1 as [|e w Hr IH].
  - repeat split; cbn; [intros t [] | discriminate].
  - destruct e; convert_cases w; cbn [negb]; try exact IH;
      repeat first
        [ exact IH
        | apply flag_backed_elapse;
            [exact fire_recalculation_clears | exact fire_push_keeps |]
        | apply flag_backed_setTimeout_clear; [|reflexivity]
        | apply flag_backed_setTimeout_other; [|reflexivity]
        | apply flag_backed_render; [| cbn; intros E; exact E ] ].
Qed.

(** The "calculating" indicator never hangs: in a state that the page can
    reach, [isCalculating] is reset once 300 ms have passed without an
    event. *)
Theorem calculation_always_completes (w : world) (ms : N) :
  reachable w -> (300 <= ms)%N ->
  isCalculating (view (elapse fire ms w)) = false.
Proof.
  intros Hr Hms.
  apply (flag_down_after_delay fire isCalculating is_recalculation 300);
    [exact fire_recalculation_clears | exact fire_push_keeps
    | exact (reachable_calculating_backed w Hr) | exact Hms].
Qed.

(** Both amounts are edited within 100 ms, then nothing for 300 ms. *)
Lemma calculation_always_completes_witness :
  isCalculating (view (elapse fire 300
    (run [PayValueEdited "2"; Wait 100; ReceiveValueEdited "5"] mount)))
  = false.
Proof.
  apply (calculation_always_completes
           (run [PayValueEdited "2"; Wait 100; ReceiveValueEdited "5"] mount) 300).
  - repeat apply reachable_step. apply reachable_mount.
  - lia.
Defined.

(** *** One navigation at most *)

(** The navigation in flight and the navigations made are one once
    [isConverting] is set and none before. *)
Lemma reachable_one_navigation (w : world) :
  reachable w ->
  (pending is_push_recipient (timers w) + List.length (pushed (view w))
   = Nat.b2n (isConverting (view w)))%nat
  /\ (forall route, In route (pushed (view w)) -> route = "/recipient-details").
Proof.
  induction 1 as [|e w Hr [IHn IHr]].
  - split; [reflexivity | intros n []].
  - destruct e; convert_cases w; cbn [negb]; try discriminate;
      try (split; [exact IHn | exact IHr]);
      unfold setTimeout, render; cbn [view now timers];
      rewrite ?pending_enqueue; cbn [is_push_recipient callback];
      try (cbn in IHn |- *;
           repeat match goal with
             | H : isConverting (view w) = _ |- _ =>
                 try rewrite H in IHn; try rewrite H; clear H
             end;
           cbn in IHn |- *; split; [lia | exact IHr]).
    (* waiting *)
    destruct (view_elapse fire ms w) as (Ev & Et & _). rewrite Ev, Et.
      apply (run_due_invariant fire
        (fun p q =>
           (pending is_push_recipient q + List.length (pushed p)
            = Nat.b2n (isConverting p))%nat
           /\ (forall route, In route (pushed p) ->
               route = "/recipient-details")));
        [|split; assumption].
      intros [d cb] r p [Hn Hin]. unfold pending in *.
      destruct cb as [v|v|]; cbn [fire callback].
      * destruct (payToReceive v); cbn in *; split; assumption.
      * destruct (receiveToPay v); cbn in *; split; assumption.
      * cbn in *. split; [lia|].
        intros route [<-|Hroute]; [reflexivity | apply Hin, Hroute].
Qed.

(** "Convert now" navigates once at most: in a state that the page can
    reach the router has been pushed at most once, to ["/recipient-details"],
    however often the button is clicked; and once it has been, or is about to
    be, the button is disabled. *)
Theorem navigates_at_most_once (w : world) :
  reachable w ->
  (List.length (pushed (view w)) <= 1)%nat
  /\ (forall route, In route (pushed (view w)) -> route = "/recipient-details")
  /\ ((0 < pending is_push_recipient (timers w)
          + List.length (pushed (view w)))%nat ->
      isConverting (view w) = true /\ step ConvertClicked w = w).
Proof.
  intros Hr. destruct (reachable_one_navigation w Hr) as [Hn Hin].
  split; [|split; [exact Hin|]].
  - destruct (isConverting (view w)); cbn in Hn; lia.
  - intros Hpos. destruct (isConverting (view w)) eqn:E; cbn in Hn; [|lia].
    split; [reflexivity|]. cbn [step]. rewrite E. reflexivity.
Qed.

(** Wallets chosen, then three impatient clicks. *)
Lemma navigates_at_most_once_witness :
  (List.length (pushed (view
    (run [PayFromChosen "Metamask"; PayToChosen "Rainbow"; ConvertClicked;
          Wait 100; ConvertClicked; Wait 800; ConvertClicked; Wait 800]
       mount))) <= 1)%nat.
Proof.
  apply (navigates_at_most_once
    (run [PayFromChosen "Metamask"; PayToChosen "Rainbow"; ConvertClicked;
          Wait 100; ConvertClicked; Wait 800; ConvertClicked; Wait 800]
       mount)).
  repeat apply reachable_step. apply reachable_mount.
Defined.

End HomeInvariants.

(** ** Completions that come after the text has changed *)

Module StaleCompletions.

Import EventLoop EventLoopFacts.

Lemma fire_receive_keeps_pay (v : string) (s : Home.state) :
  Home.payValue (Home.fire (Home.RecalculateReceive v) s) = Home.payValue s.
Proof. unfold Home.fire. destruct (Home.payToReceive v); reflexivity. Qed.

(** Edits on the two sides within the delay overwrite one another. With
    nothing else pending, the receive amount is edited to [r] and, less than
    300 ms later, the pay amount to [v]; 300 ms after that the pay field no
    longer holds [v] but the conversion of [r], and the receive field no
    longer holds [r] but the conversion of [v]. *)
Theorem opposite_edits_overwrite_each_other
    (w : Home.world) (r v : string) (dt : N) :
  timers w = [] -> (dt < 300)%N ->
  Return (Home.payValue (view
    (Home.run [Home.ReceiveValueEdited r; Home.Wait dt;
               Home.PayValueEdited v; Home.Wait 300] w)))
  = Home.receiveToPay r
  /\ Return (Home.receiveValue (view
    (Home.run [Home.ReceiveValueEdited r; Home.Wait dt;
               Home.PayValueEdited v; Home.Wait 300] w)))
     = Home.payToReceive v
  /\ timers
       (Home.run [Home.ReceiveValueEdited r; Home.Wait dt;
                  Home.PayValueEdited v; Home.Wait 300] w) = [].
Proof.
  intros Hq Hdt. destruct w as [s n q]. cbn [timers] in Hq. subst q.
  unfold Home.run. cbn [fold_left Home.step].
  unfold Home.handlePayValueChange, Home.handleReceiveValueChange,
    setTimeout, render, elapse.
  settle_queue. split; [|split].
  - rewrite fire_receive_keeps_pay. apply HomeFacts.fire_RecalculatePay.
  - apply HomeFacts.fire_RecalculateReceive.
  - reflexivity.
Qed.

(** ["7000"] is typed on the receive side and ["5"] on the pay side 100 ms
    later. *)
Lemma opposite_edits_overwrite_each_other_witness :
  Return (Home.payValue (view
    (Home.run [Home.ReceiveValueEdited "7000"; Home.Wait 100;
               Home.PayValueEdited "5"; Home.Wait 300] Home.mount)))
  = Home.receiveToPay "7000"
  /\ Home.receiveToPay "7000" = Return "2.0000"
  /\ Home.payToReceive "5" = Return "17500.00".
Proof.
  split; [|split; vm_compute; reflexivity].
  apply (opposite_edits_overwrite_each_other Home.mount "7000" "5" 100);
    reflexivity.
Defined.

Import RecipientDetails.

(** A verification that was started completes even when the number has been
    changed since. With nothing else pending, a text of ten characters is
    typed and, less than 600 ms later, changed to a text of another length;
    when the 600 ms of the verification are over the account name shows the
    canned name, as verified, beside a number that no verification was
    started for. *)
Theorem stale_verification_names_changed_number
    (w : world) (value changed : string) (dt : N) :
  timers w = [] ->
  String.length value = 10%nat -> String.length changed <> 10%nat ->
  (dt < 600)%N ->
  accountNumber (view
    (elapse fire (600 - dt) (handleAccountNumberChange changed
       (elapse fire dt (handleAccountNumberChange value w))))) = changed
  /\ accountName (view
    (elapse fire (600 - dt) (handleAccountNumberChange changed
       (elapse fire dt (handleAccountNumberChange value w)))))
     = "ODUTUGA GBEKE"
  /\ isVerifying (view
    (elapse fire (600 - dt) (handleAccountNumberChange changed
       (elapse fire dt (handleAccountNumberChange value w))))) = false.
Proof.
  intros Hq Hlen Hother Hdt. destruct w as [s n q]. cbn [timers] in Hq. subst q.
  rewrite (RecipientFacts.edit_other_length _ _ Hother).
  rewrite (RecipientFacts.edit_length_10 _ _ Hlen).
  unfold setTimeout, render, elapse. settle_queue. repeat split.
Qed.

(** Ten digits, and an eleventh 100 ms later. *)
Lemma stale_verification_names_changed_number_witness :
  accountName (view
    (elapse fire (600 - 100) (handleAccountNumberChange "12345678901"
       (elapse fire 100
          (handleAccountNumberChange "1234567890" (mount Samples.nigeria))))))
  = "ODUTUGA GBEKE".
Proof.
  apply (stale_verification_names_changed_number
           (mount Samples.nigeria) "1234567890" "12345678901" 100);
    try reflexivity; cbn; lia.
Defined.

End StaleCompletions.

(** ** The e-mail pattern and the phone check *)

Module ValidationFacts.

Import Regex.
#[local] Open Scope list_scope.

Lemma matches_nil (s : list ascii) : matches s [] = true <-> s = [].
Proof. destruct s; cbn; split; (reflexivity || discriminate). Qed.

Lemma matches_lit (c : ascii) (p : list item) (s : list ascii) :
  matches s (Lit c :: p) = true <->
  exists rest, s = c :: rest /\ matches rest p = true.
Proof.
  destruct s as [|a s']; cbn.
  - split; [discriminate | intros (rest & E & _); discriminate].
  - rewrite andb_true_iff, Ascii.eqb_eq. split.
    + intros [-> H]. exists s'. split; [reflexivity | exact H].
    + intros (rest & E & H). injection E as -> ->. split; [reflexivity | exact H].
Qed.

(** [cls+] takes a run of one character or more of the class, and the rest
    of the pattern matches what is left. *)
Lemma matches_plus (cls : ascii -> bool) (p : list item) (s : list ascii) :
  matches s (Plus cls :: p) = true <->
  exists run rest,
    s = run ++ rest /\ run <> [] /\ forallb cls run = true
    /\ matches rest p = true.
Proof.
  induction s as [|a s' IH]; cbn [matches].
  - split; [discriminate|].
    intros (run & rest & E & Hne & _). destruct run; [contradiction|discriminate].
  - rewrite andb_true_iff, orb_true_iff. split.
    + intros [Ha [Hp|Hmore]].
      * exists [a], s'. cbn. rewrite Ha. repeat split; [discriminate | exact Hp].
      * apply IH in Hmore. destruct Hmore as (run & rest & -> & _ & Hall & Hp).
        exists (a :: run), rest. cbn. rewrite Ha, Hall.
        repeat split; [discriminate | exact Hp].
    + intros (run & rest & E & Hne & Hall & Hp).
      destruct run as [|b run]; [contradiction|].
      cbn in E, Hall. injection E as -> ->.
      apply andb_true_iff in Hall. destruct Hall as [Ha Hall].
      split; [exact Ha|]. destruct run as [|b' run].
      * left. exact Hp.
      * right. apply IH. exists (b' :: run), rest.
        repeat split; [discriminate | exact Hall | exact Hp].
Qed.

(** What the pattern [/^[^\s@]+@[^\s@]+\.[^\s@]+$/] accepts. *)
Lemma email_shape (email : string) :
  Utils.isValidEmail email = true <->
  exists local domain top : list ascii,
    JSString.chars email = local ++ "@"%char :: domain ++ "."%char :: top
    /\ local <> [] /\ domain <> [] /\ top <> []
    /\ forallb not_space_at local = true
    /\ forallb not_space_at domain = true
    /\ forallb not_space_at top = true.
Proof.
  unfold Utils.isValidEmail, test, email_pattern.
  rewrite matches_plus. split.
  - intros (local & r1 & E1 & N1 & A1 & H1).
    apply matches_lit in H1. destruct H1 as (r2 & -> & H2).
    apply matches_plus in H2. destruct H2 as (domain & r3 & -> & N2 & A2 & H3).
    apply matches_lit in H3. destruct H3 as (r4 & -> & H4).
    apply matches_plus in H4. destruct H4 as (top & r5 & -> & N3 & A3 & H5).
    apply matches_nil in H5. subst r5. rewrite app_nil_r in E1.
    exists local, domain, top. repeat split; assumption.
  - intros (local & domain & top & E & N1 & N2 & N3 & A1 & A2 & A3).
    exists local, ("@"%char :: domain ++ "."%char :: top).
    repeat split; try assumption.
    apply matches_lit. eexists. split; [reflexivity|].
    apply matches_plus. exists domain, ("."%char :: top).
    repeat split; try assumption.
    apply matches_lit. eexists. split; [reflexivity|].
    apply matches_plus. exists top, []. rewrite app_nil_r.
    repeat split; try assumption.
Qed.

(** The e-mail pattern accepts exactly the texts made of a local part, an
    ["@"], a domain, a ["."] and a last part, each of the three of one
    character or more and free of white space and of ["@"]. *)
Theorem valid_email_shape (email : string) :
  Utils.isValidEmail email = true <->
  exists local domain top : list ascii,
    JSString.chars email = local ++ "@"%char :: domain ++ "."%char :: top
    /\ local <> [] /\ domain <> [] /\ top <> []
    /\ forallb not_space_at local = true
    /\ forallb not_space_at domain = true
    /\ forallb not_space_at top = true.
Proof. exact (email_shape email). Qed.

Lemma length_chars (s : string) :
  List.length (JSString.chars s) = String.length s.
Proof. induction s as [|c s IH]; cbn; [reflexivity | f_equal; exact IH]. Qed.

Lemma length_of_chars (l : list ascii) :
  String.length (string_of_list_ascii l) = List.length l.
Proof. induction l as [|c l IH]; cbn; [reflexivity | f_equal; exact IH]. Qed.

Lemma no_at_in_class (l : list ascii) :
  forallb not_space_at l = true ->
  count_occ ascii_dec l "@"%char = 0%nat /\ existsb JSString.is_space l = false.
Proof.
  induction l as [|c l IH]; cbn [forallb count_occ existsb]; [split; reflexivity|].
  rewrite andb_true_iff. intros [Hc Hl]. destruct (IH Hl) as [IH1 IH2].
  unfold not_space_at in Hc. apply negb_true_iff, orb_false_iff in Hc.
  destruct Hc as [Hspace Hat]. rewrite Hspace, IH2. split; [|reflexivity].
  destruct (ascii_dec c "@") as [->|_]; [discriminate | exact IH1].
Qed.

(** What the e-mail pattern never accepts: a text with white space in it,
    with no ["@"] or with more than one, or of fewer than five characters. *)
Theorem valid_email_has_one_at (email : string) :
  Utils.isValidEmail email = true ->
  count_occ ascii_dec (JSString.chars email) "@"%char = 1%nat
  /\ existsb JSString.is_space (JSString.chars email) = false
  /\ (5 <= String.length email)%nat.
Proof.
  intros H. apply email_shape in H.
  destruct H as (local & domain & top & E & N1 & N2 & N3 & A1 & A2 & A3).
  destruct (no_at_in_class _ A1) as [C1 S1].
  destruct (no_at_in_class _ A2) as [C2 S2].
  destruct (no_at_in_class _ A3) as [C3 S3].
  rewrite <- length_chars, E. split; [|split].
  - rewrite count_occ_app. cbn [count_occ].
    destruct (ascii_dec "@" "@") as [_|Hne]; [|contradiction].
    rewrite count_occ_app. cbn [count_occ].
    destruct (ascii_dec "." "@") as [Heq|_]; [discriminate|].
    rewrite C1, C2, C3. reflexivity.
  - rewrite existsb_app. cbn [existsb]. rewrite existsb_app. cbn [existsb].
    rewrite S1, S2, S3. reflexivity.
  - rewrite length_app. cbn [List.length]. rewrite length_app. cbn [List.length].
    destruct local, domain, top; try contradiction; cbn; lia.
Qed.

(** The address of the examples. *)
Lemma valid_email_has_one_at_witness :
  count_occ ascii_dec (JSString.chars "user@example.com") "@"%char = 1%nat.
Proof.
  apply (valid_email_has_one_at "user@example.com"). reflexivity.
Defined.

(** *** The phone check *)

Lemma digits_no_more_than_characters (phone : string) :
  (String.length (JSString.digitsOnly phone) <= String.length phone)%nat.
Proof.
  unfold JSString.digitsOnly. rewrite length_of_chars, <- length_chars.
  apply length_filter.
Qed.

(** [isValidPhone] is the stricter check: a phone number that it accepts
    gets no error from the contact form, nor from [validateContact]; and it
    has at least seven characters. *)
Theorem valid_phone_passes_the_form
    (phone : string) (s : RecipientDetails.state) (email : string) :
  Utils.isValidPhone phone = true ->
  RecipientDetails.phoneNumber s = phone ->
  RecipientDetails.err_phoneNumber (RecipientDetails.emailErrors s) = None
  /\ Hooks.ce_phoneNumber (fst (Hooks.validateContact email phone)) = None
  /\ (7 <= String.length phone)%nat.
Proof.
  unfold Utils.isValidPhone. rewrite andb_true_iff. intros [Hmin _] Hp.
  apply Nat.leb_le in Hmin.
  pose proof (digits_no_more_than_characters phone) as Hle.
  assert (Hlen : (7 <= String.length phone)%nat) by lia.
  assert (Hlt : (String.length phone <? 7)%nat = false)
    by (apply Nat.ltb_ge; exact Hlen).
  assert (Ht : JSString.truthy phone = true).
  { destruct phone; [cbn in Hlen; lia | reflexivity]. }
  cbn [RecipientDetails.emailErrors RecipientDetails.err_phoneNumber
       Hooks.validateContact fst Hooks.ce_phoneNumber].
  unfold Tokens.VALIDATION.phone_minLength. rewrite Hp, Ht, Hlt.
  repeat split. exact Hlen.
Qed.

(** A number written with its separators. *)
Lemma valid_phone_passes_the_form_witness :
  RecipientDetails.err_phoneNumber
    (RecipientDetails.emailErrors
       (RecipientDetails.setPhoneNumber "+234 801 234 5678"
          (RecipientDetails.initial Samples.nigeria))) = None.
Proof.
  apply (valid_phone_passes_the_form "+234 801 234 5678"
           (RecipientDetails.setPhoneNumber "+234 801 234 5678"
              (RecipientDetails.initial Samples.nigeria)) "");
    reflexivity.
Defined.

End ValidationFacts.

(** ** [debounce] *)

Module DebounceFacts.

Import EventLoop Debounce.

Section Debounced.
Context {A : Type}.





End Debounced.


End DebounceFacts.

(** ** The text helpers of [utils.ts] *)

Module TextFacts.

Import JSString Text.

Lemma length_take (k : nat) (s : string) :
  String.length (take k s) = Nat.min k (String.length s).
Proof.
  revert s. induction k as [|k IH]; intros [|c s]; cbn; try reflexivity.
  f_equal. apply IH.
Qed.

Lemma take_all (k : nat) (s : string) :
  (String.length s <= k)%nat -> take k s = s.
Proof.
  revert s. induction k as [|k IH]; intros [|c s]; cbn; try reflexivity.
  - lia.
  - intros H. f_equal. apply IH. lia.
Qed.

(** [truncateText] returns a text that fits as it is. A longer text is cut
    to [maxLength] characters and ["..."] is added, so the result has
    [maxLength + 3] characters and is longer than the text itself when the text
    exceeds [maxLength] by one or two characters. A negative [maxLength] cuts
    that many characters off the end. *)
Theorem truncateText_result (text : string) (maxLength : Z) :
  ((Z.of_nat (String.length text) <= maxLength)%Z ->
   truncateText text maxLength = text)
  /\
  ((0 <= maxLength < Z.of_nat (String.length text))%Z ->
   truncateText text maxLength = take (Z.to_nat maxLength) text ++ "..."
   /\ Z.of_nat (String.length (truncateText text maxLength))
      = (maxLength + 3)%Z)
  /\
  ((Z.of_nat (String.length text) - 3 < maxLength
      < Z.of_nat (String.length text))%Z ->
   (String.length text < String.length (truncateText text maxLength))%nat)
  /\
  ((maxLength < 0)%Z ->
   truncateText text maxLength
   = take (Z.to_nat (Z.of_nat (String.length text) + maxLength)) text ++ "...").
Proof.
  unfold truncateText, slice0.
  assert (Hcut : (0 <= maxLength < Z.of_nat (String.length text))%Z ->
    (if (Z.of_nat (String.length text) <=? maxLength)%Z then text
     else take (Z.to_nat
                  (if (maxLength <? 0)%Z
                   then Z.max (Z.of_nat (String.length text) + maxLength) 0
                   else Z.min maxLength (Z.of_nat (String.length text))))
            text ++ "...")
    = take (Z.to_nat maxLength) text ++ "...").
  { intros H.
    destruct (Z.leb_spec (Z.of_nat (String.length text)) maxLength); [lia|].
    destruct (Z.ltb_spec maxLength 0); [lia|].
    rewrite Z.min_l by lia. reflexivity. }
  split; [|split; [|split]].
  - intros H.
    destruct (Z.leb_spec (Z.of_nat (String.length text)) maxLength);
      [reflexivity | lia].
  - intros H. rewrite (Hcut H). split; [reflexivity|].
    rewrite RecipientFacts.length_append, length_take. cbn [String.length]. lia.
  - intros H.
    destruct (Z.ltb_spec maxLength 0) as [Hneg|Hpos].
    + destruct (Z.leb_spec (Z.of_nat (String.length text)) maxLength); [lia|].
      rewrite RecipientFacts.length_append, length_take. cbn [String.length].
      lia.
    + rewrite Hcut by lia.
      rewrite RecipientFacts.length_append, length_take. cbn [String.length].
      lia.
  - intros H.
    destruct (Z.leb_spec (Z.of_nat (String.length text)) maxLength); [lia|].
    destruct (Z.ltb_spec maxLength 0); [|lia].
    destruct (Z.max_spec (Z.of_nat (String.length text) + maxLength) 0)
      as [[Hlt ->]|[Hge ->]]; [|reflexivity].
    replace (Z.to_nat (Z.of_nat (String.length text) + maxLength)) with O by lia.
    reflexivity.
Qed.

(** The text of the example, and a text that gets longer. *)
Lemma truncateText_result_witness :
  truncateText "This is a long text" 10 = take 10 "This is a long text" ++ "..."
  /\ (String.length "abcd" < String.length (truncateText "abcd" 3))%nat.
Proof.
  split.
  - apply (proj1 (proj2 (truncateText_result "This is a long text" 10))).
    cbn. lia.
  - apply (proj1 (proj2 (proj2 (truncateText_result "abcd" 3)))). cbn. lia.
Defined.

(** *** [generateInputId] *)

Lemma slug_char_fixed (c : ascii) :
  is_slug_char c = true -> lower c = c /\ is_space c = false.
Proof.
  destruct c as [[] [] [] [] [] [] [] []]; cbn; intros H;
    (discriminate || (split; reflexivity)).
Qed.

Lemma lower_lower (c : ascii) : lower (lower c) = lower c.
Proof. destruct c as [[] [] [] [] [] [] [] []]; reflexivity. Qed.

Lemma slug_chars_fixed (l : list ascii) :
  forallb is_slug_char l = true ->
  List.filter is_slug_char (dash_spaces false (map lower l)) = l.
Proof.
  induction l as [|c l IH]; cbn [forallb map dash_spaces List.filter];
    [reflexivity|].
  rewrite andb_true_iff. intros [Hc Hl].
  destruct (slug_char_fixed c Hc) as [-> ->]. cbn [List.filter].
  rewrite Hc, (IH Hl). reflexivity.
Qed.

Lemma filter_all (A : Type) (f : A -> bool) (l : list A) :
  forallb f (List.filter f l) = true.
Proof.
  induction l as [|x l IH]; cbn; [reflexivity|].
  destruct (f x) eqn:E; cbn; [rewrite E|]; exact IH.
Qed.

(** The part of an identifier that comes from the label holds nothing but
    small letters, digits and dashes; making an identifier of it again
    changes nothing; and capitals do not tell two labels apart. *)
Theorem generated_id_is_a_slug (prefix label : string) :
  forallb is_slug_char (chars (slug label)) = true
  /\ slug (slug label) = slug label
  /\ generateInputId prefix (slug label) = generateInputId prefix label
  /\ generateInputId prefix (toLowerCase label) = generateInputId prefix label.
Proof.
  assert (Hall : forallb is_slug_char (chars (slug label)) = true).
  { unfold slug, chars. rewrite list_ascii_of_string_of_list_ascii.
    apply filter_all. }
  assert (Hfix : slug (slug label) = slug label).
  { unfold slug at 1. unfold toLowerCase, chars.
    rewrite list_ascii_of_string_of_list_ascii.
    pose proof Hall as Hall'. unfold chars in Hall'.
    rewrite (slug_chars_fixed _ Hall'). apply string_of_list_ascii_of_string. }
  split; [exact Hall|]. split; [exact Hfix|]. split.
  - unfold generateInputId. rewrite Hfix. reflexivity.
  - unfold generateInputId, slug, toLowerCase, chars.
    rewrite !list_ascii_of_string_of_list_ascii, map_map.
    rewrite (map_ext _ _ lower_lower). reflexivity.
Qed.

(** *** [cn] *)

(** [cn] leaves out every falsy argument, wherever it stands, and gives the
    empty text when all are falsy; a bare [true] counts as the class name
    ["true"]. *)
Theorem cn_skips_falsy (before after : list class_value) (x : class_value) :
  (Boolean x = false ->
   cn (before ++ x :: after)%list = cn (before ++ after)%list)
  /\ (forallb (fun v => negb (Boolean v)) before = true -> cn before = "")
  /\ cn (before ++ class_boolean true :: after)%list
     = cn (before ++ class_string "true" :: after)%list.
Proof.
  unfold cn. split; [|split].
  - intros H. rewrite !List.filter_app. cbn [List.filter]. rewrite H.
    reflexivity.
  - intros H. induction before as [|v l IH]; [reflexivity|].
    cbn [forallb] in H. apply andb_true_iff in H. destruct H as [Hv Hl].
    apply negb_true_iff in Hv. cbn [List.filter]. rewrite Hv. apply IH, Hl.
  - rewrite !List.filter_app, !map_app. reflexivity.
Qed.

(** The arguments of the example, with the condition false. *)
Lemma cn_skips_falsy_witness :
  cn ([class_string "btn"] ++ class_boolean false :: [class_string "primary"])%list
  = cn ([class_string "btn"] ++ [class_string "primary"])%list.
Proof.
  apply (proj1 (cn_skips_falsy [class_string "btn"] [class_string "primary"]
                  (class_boolean false))).
  reflexivity.
Defined.

End TextFacts.

(** ** The rate table and the selectable currencies *)

Module TableFacts.

Import JSNumber Tokens Utils.

(** Every pair that the two currency selectors offer has a rate in the
    table, finite and not zero: for the currencies a user can select the
    fallback rate is never used. *)
Theorem selectable_pairs_have_rates (c f : string) (fallback : number) :
  In c Options.payCurrencyOptions -> In f Options.receiveCurrencyOptions ->
  exists rate,
    EXCHANGE_RATES !! rate_key c f = Some rate
    /\ truthy rate = true /\ is_finite rate = true
    /\ rate_or (rate_key c f) fallback = rate.
Proof.
  cbn [Options.payCurrencyOptions Options.receiveCurrencyOptions In].
  intros [<-|[<-|[<-|[]]]] [<-|[<-|[<-|[]]]];
    eexists; (split; [vm_compute; reflexivity|]); repeat split.
Qed.

(** Tether to euro, the one rate that is not a whole number. *)
Lemma selectable_pairs_have_rates_witness :
  exists rate,
    EXCHANGE_RATES !! rate_key "USDT" "EUR" = Some rate
    /\ truthy rate = true /\ is_finite rate = true
    /\ rate_or (rate_key "USDT" "EUR") (of_N 0) = rate.
Proof.
  apply (selectable_pairs_have_rates "USDT" "EUR" (of_N 0));
    cbn; intuition.
Defined.

Lemma round_trips_checked :
  forallb (fun c =>
    forallb (fun f =>
      forallb (fun n =>
        match calculateExchangeRate (of_N (N.of_nat n)) c f with
        | Return fiat =>
            match calculateInverseRate (parseFloat fiat) c f with
            | Return crypto =>
                String.eqb crypto (JSString.of_N (N.of_nat n) ++ ".0000")
            | Throw _ => false
            end
        | Throw _ => false
        end) (seq 0 1001))
      Options.receiveCurrencyOptions)
    Options.payCurrencyOptions = true.
Proof. vm_compute. reflexivity. Qed.

(** Round trip of whole amounts. For every selectable pair and every whole
    amount up to 1000, converting the amount, reading the result back with
    [parseFloat] and converting that with the inverse rate gives the amount
    again, written with four decimals. *)
Theorem whole_amounts_round_trip (c f : string) (n : nat) :
  In c Options.payCurrencyOptions -> In f Options.receiveCurrencyOptions ->
  (n <= 1000)%nat ->
  exists fiat,
    calculateExchangeRate (of_N (N.of_nat n)) c f = Return fiat
    /\ calculateInverseRate (parseFloat fiat) c f
       = Return (JSString.of_N (N.of_nat n) ++ ".0000").
Proof.
  intros Hc Hf Hn. pose proof round_trips_checked as H.
  rewrite forallb_forall in H. specialize (H c Hc).
  rewrite forallb_forall in H. specialize (H f Hf).
  rewrite forallb_forall in H. specialize (H n).
  assert (Hin : In n (seq 0 1001)) by (apply in_seq; lia).
  specialize (H Hin).
  destruct (calculateExchangeRate (of_N (N.of_nat n)) c f) as [fiat|];
    [|discriminate].
  exists fiat. split; [reflexivity|].
  destruct (calculateInverseRate (parseFloat fiat) c f) as [crypto|];
    [|discriminate].
  apply String.eqb_eq in H. rewrite H. reflexivity.
Qed.

(** Three bitcoin in naira and back. *)
Lemma whole_amounts_round_trip_witness :
  exists fiat,
    calculateExchangeRate (of_N (N.of_nat 3)) "BTC" "NGN" = Return fiat
    /\ calculateInverseRate (parseFloat fiat) "BTC" "NGN"
       = Return (JSString.of_N (N.of_nat 3) ++ ".0000").
Proof.
  apply (whole_amounts_round_trip "BTC" "NGN" 3); cbn; intuition lia.
Defined.

Lemma page_round_trips_checked :
  forallb (fun n =>
    match Home.payToReceive (JSString.of_N (N.of_nat n)) with
    | Return receive =>
        match Home.receiveToPay receive with
        | Return pay => String.eqb pay (JSString.of_N (N.of_nat n) ++ ".0000")
        | Throw _ => false
        end
    | Throw _ => false
    end) (seq 0 1001) = true.
Proof. vm_compute. reflexivity. Qed.

(** The same on the page, with its factor of 3500: a whole pay amount up to
    1000 gives a receive amount which, typed into the receive field, gives
    the pay amount again; but as a text with four decimals, not the text that
    was typed. *)
Theorem page_whole_amounts_round_trip (n : nat) :
  (n <= 1000)%nat ->
  exists receive,
    Home.payToReceive (JSString.of_N (N.of_nat n)) = Return receive
    /\ Home.receiveToPay receive
       = Return (JSString.of_N (N.of_nat n) ++ ".0000").
Proof.
  intros Hn. pose proof page_round_trips_checked as H.
  rewrite forallb_forall in H. specialize (H n).
  assert (Hin : In n (seq 0 1001)) by (apply in_seq; lia).
  specialize (H Hin).
  destruct (Home.payToReceive (JSString.of_N (N.of_nat n))) as [receive|];
    [|discriminate].
  exists receive. split; [reflexivity|].
  destruct (Home.receiveToPay receive) as [pay|]; [|discriminate].
  apply String.eqb_eq in H. rewrite H. reflexivity.
Qed.

Lemma page_whole_amounts_round_trip_witness :
  exists receive,
    Home.payToReceive (JSString.of_N (N.of_nat 2)) = Return receive
    /\ Home.receiveToPay receive
       = Return (JSString.of_N (N.of_nat 2) ++ ".0000").
Proof. apply (page_whole_amounts_round_trip 2). lia. Defined.

End TableFacts.

(** ** The validation hooks and the pages' own validators *)

Module HookFacts.

Import RecipientDetails.

(** The hooks of [useFormValidation.ts] and the validators written out in
    the pages decide alike and store the same errors, field by field, but for
    one message: for an address that does not match the pattern the hook says
    "Please enter a valid email address" and the page "Please enter a valid
    email". *)
Theorem hooks_agree_with_pages :
  (forall s : Home.state,
     FormHooks.validateCheckout (Home.payFrom s) (Home.payTo s)
     = (FormHooks.CheckoutErrors (Home.err_payFrom (Home.newErrors s))
                                 (Home.err_payTo (Home.newErrors s)),
        snd (Home.validateForm s)))
  /\
  (forall s : state,
     FormHooks.validateBankDetails (selectedBank s) (accountNumber s)
     = (FormHooks.BankErrors (err_bank (bankErrors s))
                             (err_accountNumber (bankErrors s)),
        snd (validateBankForm s)))
  /\
  (forall s : state,
     snd (Hooks.validateContact (email s) (phoneNumber s))
     = snd (validateEmailForm s)
     /\ Hooks.ce_phoneNumber (fst (Hooks.validateContact (email s) (phoneNumber s)))
        = err_phoneNumber (emailErrors s)
     /\ (Utils.isValidEmail (email s) = true \/ email s = "" ->
         Hooks.ce_email (fst (Hooks.validateContact (email s) (phoneNumber s)))
         = err_email (emailErrors s))
     /\ (Utils.isValidEmail (email s) = false -> email s <> "" ->
         Hooks.ce_email (fst (Hooks.validateContact (email s) (phoneNumber s)))
         = Some "Please enter a valid email address"
         /\ err_email (emailErrors s) = Some "Please enter a valid email")).
Proof.
  split; [|split].
  - intros s. unfold FormHooks.validateCheckout, Home.validateForm, Home.newErrors.
    cbn. destruct (JSString.truthy (Home.payFrom s)),
      (JSString.truthy (Home.payTo s)); reflexivity.
  - intros s. unfold FormHooks.validateBankDetails, validateBankForm, bankErrors.
    cbn. destruct (JSString.truthy (selectedBank s)),
      (JSString.truthy (accountNumber s)),
      (String.length (accountNumber s) <? 10)%nat; reflexivity.
  - intros s. unfold Hooks.validateContact, validateEmailForm, emailErrors,
      Utils.isValidEmail, Tokens.VALIDATION.email_pattern,
      Tokens.VALIDATION.phone_minLength.
    cbn [fst snd Hooks.ce_phoneNumber Hooks.ce_email err_phoneNumber err_email].
    destruct (email s) as [|c e] eqn:Ee; cbn [JSString.truthy negb];
      [|destruct (Regex.test Regex.email_pattern (String c e)) eqn:Et;
        cbn [negb]];
      repeat split; intros;
      try (destruct (JSString.truthy (phoneNumber s)),
             (String.length (phoneNumber s) <? 7)%nat; reflexivity);
      try reflexivity; try congruence; intuition congruence.
Qed.

(** A malformed address, on the page and in the hook. *)
Lemma hooks_agree_with_pages_witness :
  Hooks.ce_email (fst (Hooks.validateContact "user.example.com" ""))
  = Some "Please enter a valid email address"
  /\ err_email (emailErrors (setEmail "user.example.com"
                               (initial Samples.nigeria)))
     = Some "Please enter a valid email".
Proof.
  apply (proj2 (proj2 (proj2 (proj2 (proj2 hooks_agree_with_pages)
           (setEmail "user.example.com" (initial Samples.nigeria)))))).
  - reflexivity.
  - discriminate.
Defined.

End HookFacts.

(** ** The contact step, and going back to the bank step *)

Module ContactStepFacts.

Import EventLoop EventLoopFacts RecipientDetails.

Lemma email_verdict (s : state) :
  snd (validateEmailForm s)
  = Utils.isValidEmail (email s)
    && (7 <=? String.length (phoneNumber s))%nat.
Proof.
  unfold validateEmailForm, emailErrors, Utils.isValidEmail.
  cbn [snd]. rewrite Nat.leb_antisym.
  destruct (email s) as [|c e]; cbn [JSString.truthy negb].
  - destruct (phoneNumber s); reflexivity.
  - destruct (Regex.test _ (String c e)); cbn [negb andb];
      [|destruct (phoneNumber s) as [|d p]; cbn [JSString.truthy negb];
        [|destruct (String.length (String d p) <? 7)%nat]; reflexivity].
    destruct (phoneNumber s) as [|d p]; cbn [JSString.truthy negb];
      [|destruct (String.length (String d p) <? 7)%nat]; reflexivity.
Qed.

(** The "Next" button on the contact form. The form passes exactly when the
    address matches the e-mail pattern and the phone number has seven
    characters or more. When it does not pass, the errors are stored and
    nothing else happens: nothing is scheduled, nothing is sent to the router
    and [isProcessing] is untouched. When it passes, [isProcessing] is set and
    the errors are cleared at once; with nothing else pending, 800 ms later
    the router has received one more call, [push("/payment")], and
    [isProcessing] is still set: this step never resets it. *)
Theorem contact_step_advance (w : world) :
  formType (view w) = form_email ->
  snd (validateEmailForm (view w))
  = Utils.isValidEmail (email (view w))
    && (7 <=? String.length (phoneNumber (view w)))%nat
  /\
  (snd (validateEmailForm (view w)) = false ->
   handleNext w = render (setErrors (emailErrors (view w))) w
   /\ emailErrors (view w) <> no_errors)
  /\
  (snd (validateEmailForm (view w)) = true ->
   isProcessing (view (handleNext w)) = true
   /\ errors (view (handleNext w)) = no_errors
   /\ routed (view (handleNext w)) = routed (view w)
   /\ (timers w = [] ->
       routed (view (elapse fire 800 (handleNext w)))
       = router_push "/payment" :: routed (view w)
       /\ isProcessing (view (elapse fire 800 (handleNext w))) = true
       /\ formType (view (elapse fire 800 (handleNext w))) = form_email
       /\ timers (elapse fire 800 (handleNext w)) = [])).
Proof.
  intros Hform. split; [apply email_verdict|].
  unfold handleNext, validateEmailForm. rewrite Hform. cbn [snd].
  split; intros Hok; rewrite Hok.
  - split; [reflexivity|]. intros E. rewrite E in Hok. discriminate.
  - assert (E : emailErrors (view w) = no_errors).
    { destruct (emailErrors (view w)) as [[|] [|] [|] [|]];
        try discriminate; reflexivity. }
    repeat split; try (cbn; rewrite ?E; reflexivity);
      rewrite elapse_setTimeout; unfold elapse, render;
      cbn [view now timers];
      match goal with Hq : timers w = [] |- _ => rewrite Hq end;
      cbn; try reflexivity.
    exact Hform.
Qed.

(** The contact form with a valid address and phone number, reached from the
    fresh page. *)
Lemma contact_step_advance_witness :
  routed (view (elapse fire 800 (handleNext
    (run [BankChosen "GTBank"; AccountNumberEdited "1234567890"; Wait 600;
          NextClicked; Wait 500;
          EmailEdited "user@example.com"; PhoneNumberEdited "8012345"]
       (mount Samples.nigeria)))))
  = [router_push "/payment"].
Proof.
  destruct (proj2 (proj2 (contact_step_advance
    (run [BankChosen "GTBank"; AccountNumberEdited "1234567890"; Wait 600;
          NextClicked; Wait 500;
          EmailEdited "user@example.com"; PhoneNumberEdited "8012345"]
       (mount Samples.nigeria)) eq_refl)) eq_refl) as (_ & _ & _ & H).
  apply (proj1 (H eq_refl)).
Defined.

(** Forward and back. From a bank form that passes validation, with the
    button enabled and nothing pending, "Next", the 500 ms of the simulated
    call and the back arrow lead to the bank form again: every cell is as it
    was, but for the errors, which are cleared. *)
Theorem next_then_back_restores_the_bank_form (w : world) :
  formType (view w) = form_bank ->
  nextDisabled (view w) = false ->
  snd (validateBankForm (view w)) = true ->
  timers w = [] ->
  run [NextClicked; Wait 500; BackClicked] w
  = World (setErrors no_errors (view w)) (now w + 500)%N [].
Proof.
  intros Hform Hen Hok Hq.
  assert (E : bankErrors (view w) = no_errors).
  { unfold validateBankForm in Hok. cbn [snd] in Hok.
    destruct (bankErrors (view w)) as [[|] [|] [|] [|]];
      try discriminate; reflexivity. }
  assert (Hnext : step NextClicked w
                  = setTimeout ShowEmailForm 500
                      (render (setIsProcessing true)
                         (render (fun _ => setErrors no_errors (view w)) w))).
  { unfold step. cbn. rewrite Hen. unfold handleNext, validateBankForm.
    rewrite Hform, E. reflexivity. }
  assert (Hwait : forall v, step (Wait 500) v = elapse fire 500 v).
  { intros v. unfold step. destruct (formType (view v)); reflexivity. }
  assert (Hback : forall v, step BackClicked v = render handleBack v).
  { intros v. unfold step. destruct (formType (view v)); reflexivity. }
  unfold run. cbn [fold_left].
  rewrite Hnext, Hwait, Hback, elapse_setTimeout.
  unfold elapse, render. cbn [view now timers]. rewrite Hq.
  cbn [run_due view now timers fire].
  unfold nextDisabled in Hen. rewrite Hform in Hen. cbn [is_bank andb] in Hen.
  apply orb_false_elim in Hen. destruct Hen as [Hp Hv].
  destruct w as [s n q]. destruct s. cbn in *. subst. reflexivity.
Qed.

Lemma next_then_back_restores_the_bank_form_witness :
  view (run [NextClicked; Wait 500; BackClicked]
    (run [BankChosen "GTBank"; AccountNumberEdited "1234567890"; Wait 600]
       (mount Samples.nigeria)))
  = view (run [BankChosen "GTBank"; AccountNumberEdited "1234567890"; Wait 600]
       (mount Samples.nigeria)).
Proof.
  rewrite (next_then_back_restores_the_bank_form
    (run [BankChosen "GTBank"; AccountNumberEdited "1234567890"; Wait 600]
       (mount Samples.nigeria)) eq_refl eq_refl eq_refl eq_refl).
  reflexivity.
Defined.

End ContactStepFacts.
